(** * Verification of the rule-based NLU core of the Moses assistant

    Shallow embedding of [ai_task_manager/enhanced_nlu.py]: the intent
    classifier, the entity extractor, the context-aware processor with its
    action synthesizer, and the suggestion generator.

    Texts are Python [str] values restricted to code points below 256, which
    is what Rocq's [ascii] holds.  The character classes, [str.lower] and
    [str.strip] below are the Unicode ones of Python restricted to that
    range.  Python's [re] module is embedded as a backtracking matcher over
    a pattern syntax tree; the pattern tables are kept as the pattern
    strings of the source and compiled by [re_compile]. *)

From Stdlib Require Import List String Ascii Bool Arith ZArith Lia PrimFloat.
Import ListNotations.
Open Scope string_scope.
Open Scope list_scope.
Open Scope nat_scope.

Set Implicit Arguments.
Set Warnings "-inexact-float".

(* ------------------------------------------------------------------ *)
(** ** Exceptions *)

Module Exn.

Inductive exn : Type :=
| ValueError (msg : string)
| TypeError (msg : string)
| OverflowError (msg : string).

(** A computation that returns a value or raises. *)
Inductive result (A : Type) : Type :=
| Ok (a : A)
| Raise (e : exn).

Arguments Ok {A} a.
Arguments Raise {A} e.

Definition bind {A B : Type} (c : result A) (f : A -> result B) : result B :=
  match c with
  | Ok a => f a
  | Raise e => Raise e
  end.

End Exn.
Import Exn.

Declare Scope exn_scope.
Delimit Scope exn_scope with exn.
Notation "x <- c ;; k" := (bind c (fun x => k))
  (at level 61, c at next level, right associativity) : exn_scope.
Open Scope exn_scope.

(* ------------------------------------------------------------------ *)
(** ** Characters and strings *)

Module PyStr.

Definition code (c : ascii) : nat := nat_of_ascii c.

Definition between (lo hi : nat) (c : ascii) : bool :=
  (lo <=? code c) && (code c <=? hi).

(** [\d]: the decimal digits. *)
Definition is_decimal (c : ascii) : bool := between 48 57 c.

(** [\s] and [str.isspace]. *)
Definition is_space (c : ascii) : bool :=
  between 9 13 c || between 28 32 c || (code c =? 133) || (code c =? 160).

(** [str.isalnum] on a single character. *)
Definition is_alnum (c : ascii) : bool :=
  between 48 57 c || between 65 90 c || between 97 122 c
  || (code c =? 170) || between 178 179 c || (code c =? 181)
  || between 185 186 c || between 188 190 c
  || between 192 214 c || between 216 246 c || between 248 255 c.

(** [\w]. *)
Definition is_word (c : ascii) : bool := is_alnum c || (code c =? 95).

Definition has_lower (c : ascii) : bool :=
  between 65 90 c || between 192 214 c || between 216 222 c.

Definition lower_char (c : ascii) : ascii :=
  if has_lower c then ascii_of_nat (code c + 32) else c.

Definition chars (s : string) : list ascii := list_ascii_of_string s.
Definition text (l : list ascii) : string := string_of_list_ascii l.

(** [s.lower()] *)
Definition lower (s : string) : string := text (map lower_char (chars s)).

Fixpoint lstrip_chars (l : list ascii) : list ascii :=
  match l with
  | c :: tl => if is_space c then lstrip_chars tl else l
  | [] => []
  end.

(** [s.strip()] *)
Definition strip (s : string) : string :=
  text (rev (lstrip_chars (rev (lstrip_chars (chars s))))).

Fixpoint starts_with (p l : list ascii) : bool :=
  match p, l with
  | [], _ => true
  | a :: p', b :: l' => Ascii.eqb a b && starts_with p' l'
  | _ :: _, [] => false
  end.

Fixpoint contains_chars (p l : list ascii) : bool :=
  starts_with p l ||
  match l with
  | [] => false
  | _ :: tl => contains_chars p tl
  end.

(** [p in s] for two strings. *)
Definition contains (p s : string) : bool := contains_chars (chars p) (chars s).

(** [any(word in s for word in words)] *)
Definition any_in (words : list string) (s : string) : bool :=
  existsb (fun w => contains w s) words.


End PyStr.

(* ------------------------------------------------------------------ *)
(** ** Regular expressions, as Python's [re] matches them *)

Module Re.
Import PyStr.

Inductive catom : Type :=
| AChar (c : ascii)
| ARange (lo hi : ascii)
| ADigit
| ASpace
| AWord.

Inductive cset : Type :=
| CsAtom (a : catom)
| CsSet (neg : bool) (items : list catom).

Inductive regex : Type :=
| REmpty
| RSet (cs : cset)
| RWordB
| RCat (r1 r2 : regex)
| RAlt (r1 r2 : regex)
| RGroup (n : nat) (r : regex)
| RRep (r : regex) (lo : nat) (hi : option nat)
| RFail.

(** *** Pattern syntax *)

Definition is_special (c : ascii) : bool :=
  existsb (Ascii.eqb c) (chars ".^$*+?{}[]()|\").

Definition escape_atom (c : ascii) : option catom :=
  if Ascii.eqb c "d" then Some ADigit
  else if Ascii.eqb c "s" then Some ASpace
  else if Ascii.eqb c "w" then Some AWord
  else if Ascii.eqb c "n" then Some (AChar (ascii_of_nat 10))
  else if is_alnum c then None
  else Some (AChar c).

Fixpoint parse_nat (l : list ascii) (acc : nat) : nat * list ascii :=
  match l with
  | c :: tl => if is_decimal c then parse_nat tl (10 * acc + (code c - 48))
               else (acc, l)
  | [] => (acc, [])
  end.

Definition starts_decimal (l : list ascii) : bool :=
  match l with c :: _ => is_decimal c | [] => false end.

(** The items of a bracketed set, up to the closing bracket. *)
Fixpoint parse_items (l : list ascii) (acc : list catom)
  : option (list catom * list ascii) :=
  match l with
  | [] => None
  | c :: tl =>
      if Ascii.eqb c "]" then Some (rev acc, tl)
      else if Ascii.eqb c "\" then
        match tl with
        | e :: tl' =>
            match escape_atom e with
            | Some a => parse_items tl' (a :: acc)
            | None => None
            end
        | [] => None
        end
      else
        match tl with
        | d :: e :: tl' =>
            if Ascii.eqb d "-" && negb (Ascii.eqb e "]") then
              if Ascii.eqb e "\" then None
              else parse_items tl' (ARange c e :: acc)
            else parse_items tl (AChar c :: acc)
        | _ => parse_items tl (AChar c :: acc)
        end
  end.

Definition parse_set (l : list ascii) : option (cset * list ascii) :=
  match l with
  | c :: tl =>
      if Ascii.eqb c "^" then
        match parse_items tl [] with
        | Some (items, rest) => Some (CsSet true items, rest)
        | None => None
        end
      else
        match parse_items l [] with
        | Some (items, rest) => Some (CsSet false items, rest)
        | None => None
        end
  | [] => None
  end.

(** A quantifier after an atom, if there is one. *)
Definition parse_quant (a : regex) (l : list ascii) : option (regex * list ascii) :=
  match l with
  | c :: tl =>
      if Ascii.eqb c "?" then Some (RRep a 0 (Some 1), tl)
      else if Ascii.eqb c "+" then Some (RRep a 1 None, tl)
      else if Ascii.eqb c "*" then Some (RRep a 0 None, tl)
      else if Ascii.eqb c "{" then
        if starts_decimal tl then
          let '(lo, r1) := parse_nat tl 0 in
          match r1 with
          | d :: r2 =>
              if Ascii.eqb d "}" then Some (RRep a lo (Some lo), r2)
              else if Ascii.eqb d "," then
                if starts_decimal r2 then
                  let '(hi, r3) := parse_nat r2 0 in
                  match r3 with
                  | e :: r4 => if Ascii.eqb e "}" then Some (RRep a lo (Some hi), r4)
                               else None
                  | [] => None
                  end
                else
                  match r2 with
                  | e :: r4 => if Ascii.eqb e "}" then Some (RRep a lo None, r4)
                               else None
                  | [] => None
                  end
              else None
          | [] => None
          end
        else None
      else Some (a, l)
  | [] => Some (a, [])
  end.

(** Recursive descent over the pattern; [g] is the number of the next
    capturing group, groups being numbered by their opening parenthesis. *)
Fixpoint parse_alt (fuel : nat) (l : list ascii) (g : nat)
  : option (regex * list ascii * nat) :=
  match fuel with
  | 0 => None
  | S fuel' =>
      match parse_seq fuel' l g with
      | Some (r1, rest, g1) =>
          match rest with
          | c :: tl =>
              if Ascii.eqb c "|" then
                match parse_alt fuel' tl g1 with
                | Some (r2, rest2, g2) => Some (RAlt r1 r2, rest2, g2)
                | None => None
                end
              else Some (r1, rest, g1)
          | [] => Some (r1, [], g1)
          end
      | None => None
      end
  end
with parse_seq (fuel : nat) (l : list ascii) (g : nat)
  : option (regex * list ascii * nat) :=
  match fuel with
  | 0 => None
  | S fuel' =>
      match l with
      | [] => Some (REmpty, [], g)
      | c :: tl =>
          if Ascii.eqb c "|" || Ascii.eqb c ")" then Some (REmpty, l, g)
          else
            let atom : option (regex * list ascii * nat) :=
              if Ascii.eqb c "(" then
                match tl with
                | q :: _ =>
                    if Ascii.eqb q "?" then None
                    else
                      match parse_alt fuel' tl (S g) with
                      | Some (r, d :: rest, g1) =>
                          if Ascii.eqb d ")" then Some (RGroup g r, rest, g1) else None
                      | _ => None
                      end
                | [] => None
                end
              else if Ascii.eqb c "[" then
                match parse_set tl with
                | Some (cs, rest) => Some (RSet cs, rest, g)
                | None => None
                end
              else if Ascii.eqb c "\" then
                match tl with
                | e :: rest =>
                    if Ascii.eqb e "b" then Some (RWordB, rest, g)
                    else match escape_atom e with
                         | Some a => Some (RSet (CsAtom a), rest, g)
                         | None => None
                         end
                | [] => None
                end
              else if is_special c then None
              else Some (RSet (CsAtom (AChar c)), tl, g)
            in
            match atom with
            | Some (a, rest, g1) =>
                match parse_quant a rest with
                | Some (q, rest1) =>
                    match parse_seq fuel' rest1 g1 with
                    | Some (r, rest2, g2) => Some (RCat q r, rest2, g2)
                    | None => None
                    end
                | None => None
                end
            | None => None
            end
      end
  end.

(** A compiled pattern: its tree and the number of its capturing groups. *)
Record pattern : Type := Pattern { tree : regex; groups : nat }.

Definition parse (p : string) : option pattern :=
  match parse_alt (S (S (String.length p))) (chars p) 1 with
  | Some (r, [], g) => Some (Pattern r (g - 1))
  | _ => None
  end.

(** [re.compile(p)]; the patterns of this program all parse
    (see [patterns_parse] below). *)
Definition re_compile (p : string) : pattern :=
  match parse p with
  | Some c => c
  | None => Pattern RFail 0
  end.

(** *** Matching *)

Definition atom_mem (ic : bool) (a : catom) (x : ascii) : bool :=
  match a with
  | AChar c => Ascii.eqb c x || (ic && Ascii.eqb (lower_char c) (lower_char x))
  | ARange lo hi =>
      between (code lo) (code hi) x
      || (ic && between (code lo) (code hi) (lower_char x))
  | ADigit => is_decimal x
  | ASpace => is_space x
  | AWord => is_word x
  end.

Definition cset_mem (ic : bool) (cs : cset) (x : ascii) : bool :=
  match cs with
  | CsAtom a => atom_mem ic a x
  | CsSet neg items => xorb neg (existsb (fun a => atom_mem ic a x) items)
  end.

(** A position in the subject: the character before it, and what follows. *)
Definition cursor : Type := option ascii * list ascii.

Definition word_before (c : cursor) : bool :=
  match fst c with Some x => is_word x | None => false end.

Definition word_after (c : cursor) : bool :=
  match snd c with x :: _ => is_word x | [] => false end.

(** [\b] *)
Definition at_boundary (c : cursor) : bool := xorb (word_before c) (word_after c).

(** The characters between two positions of one subject. *)
Definition consumed (c c' : cursor) : list ascii :=
  firstn (List.length (snd c) - List.length (snd c')) (snd c).

Definition caps : Type := list (nat * list ascii).

Definition kont : Type := cursor -> caps -> option (cursor * caps).

(** Backtracking match of [r] at [c], then [k]: alternatives are tried left
    to right and repetitions are greedy, as in [re].  [ic] is
    [re.IGNORECASE]. *)
Fixpoint m (ic : bool) (r : regex) (c : cursor) (g : caps) (k : kont) {struct r}
  : option (cursor * caps) :=
  match r with
  | REmpty => k c g
  | RFail => None
  | RSet cs =>
      match snd c with
      | x :: tl => if cset_mem ic cs x then k (Some x, tl) g else None
      | [] => None
      end
  | RWordB => if at_boundary c then k c g else None
  | RCat r1 r2 => m ic r1 c g (fun c' g' => m ic r2 c' g' k)
  | RAlt r1 r2 =>
      match m ic r1 c g k with
      | Some res => Some res
      | None => m ic r2 c g k
      end
  | RGroup n r1 => m ic r1 c g (fun c' g' => k c' ((n, consumed c c') :: g'))
  | RRep r1 lo hi =>
      (fix loop (fuel count : nat) (last : option nat) (c : cursor) (g : caps)
         {struct fuel} : option (cursor * caps) :=
         match fuel with
         | 0 => None
         | S fuel' =>
             let here := List.length (snd c) in
             let again :=
               m ic r1 c g (fun c' g' => loop fuel' (S count) (Some here) c' g') in
             if count <? lo then again
             else
               let below := match hi with Some h => count <? h | None => true end in
               let moved := match last with Some p => negb (p =? here) | None => true end in
               if below && moved then
                 match again with
                 | Some res => Some res
                 | None => k c g
                 end
               else k c g
         end) (lo + List.length (snd c) + 2) 0 None c g
  end.

Definition match_at (ic : bool) (r : regex) (c : cursor) : option (cursor * caps) :=
  m ic r c [] (fun c' g' => Some (c', g')).

(** One match: where it starts, where it ends, and its groups. *)
Record found : Type := Found { start : cursor; stop : cursor; captured : caps }.

Definition whole (f : found) : list ascii := consumed (start f) (stop f).

Fixpoint lookup (n : nat) (g : caps) : option (list ascii) :=
  match g with
  | (i, s) :: tl => if i =? n then Some s else lookup n tl
  | [] => None
  end.

(** [match.group(n)], [None] when the group took no part in the match. *)
Definition group (f : found) (n : nat) : option string :=
  match n with
  | 0 => Some (text (whole f))
  | _ => option_map text (lookup n (captured f))
  end.

Fixpoint search_from (ic : bool) (r : regex) (prev : option ascii) (l : list ascii)
  {struct l} : option found :=
  match match_at ic r (prev, l) with
  | Some (c', g) => Some (Found (prev, l) c' g)
  | None =>
      match l with
      | x :: tl => search_from ic r (Some x) tl
      | [] => None
      end
  end.

(** [re.search(p, s)] *)
Definition search_flags (ic : bool) (p : pattern) (s : string) : option found :=
  search_from ic (tree p) None (chars s).

Definition search (p : pattern) (s : string) : option found := search_flags false p s.

(** The truth value of [re.search(p, s)]. *)
Definition matches (p : pattern) (s : string) : bool :=
  match search p s with Some _ => true | None => false end.

(** The matches [re.finditer] yields, leftmost first and not overlapping;
    [skip] counts the characters still inside the previous match.  After an
    empty match the scan moves on by one character. *)
Fixpoint scan (ic : bool) (r : regex) (prev : option ascii) (l : list ascii)
  (skip : nat) {struct l} : list found :=
  match skip with
  | S k =>
      match l with
      | x :: tl => scan ic r (Some x) tl k
      | [] => []
      end
  | 0 =>
      match match_at ic r (prev, l) with
      | Some (c', g) =>
          let f := Found (prev, l) c' g in
          f :: match l with
               | x :: tl => scan ic r (Some x) tl (pred (List.length (whole f)))
               | [] => []
               end
      | None =>
          match l with
          | x :: tl => scan ic r (Some x) tl 0
          | [] => []
          end
      end
  end.

Definition finditer (ic : bool) (p : pattern) (s : string) : list found :=
  scan ic (tree p) None (chars s) 0.

(** [re.sub(p, '', s)]: the subject with every match cut out. *)
Fixpoint cut (ic : bool) (r : regex) (prev : option ascii) (l : list ascii)
  (skip : nat) {struct l} : list ascii :=
  match skip with
  | S k =>
      match l with
      | x :: tl => cut ic r (Some x) tl k
      | [] => []
      end
  | 0 =>
      match l with
      | [] => []
      | x :: tl =>
          match match_at ic r (prev, l) with
          | Some (c', _) =>
              match List.length (consumed (prev, l) c') with
              | 0 => x :: cut ic r (Some x) tl 0
              | S n => cut ic r (Some x) tl n
              end
          | None => x :: cut ic r (Some x) tl 0
          end
      end
  end.

Definition sub_empty (ic : bool) (p : pattern) (s : string) : string :=
  text (cut ic (tree p) None (chars s) 0).

End Re.

(* ------------------------------------------------------------------ *)
(** ** Python values and the library calls the program makes *)

Module Py.
Import PyStr Re.

(** What [re.findall] puts in its list: a string, or a tuple of strings when
    the pattern has two or more groups. *)
Inductive pyval : Type :=
| PStr (s : string)
| PTuple (first : string) (others : list string).

Definition group_text (f : found) (n : nat) : string :=
  match group f n with Some s => s | None => "" end.

(** [re.findall(p, s)] *)
Definition findall (p : pattern) (s : string) : list pyval :=
  map (fun f =>
         match groups p with
         | 0 => PStr (group_text f 0)
         | 1 => PStr (group_text f 1)
         | S (S n) => PTuple (group_text f 1) (map (group_text f) (seq 2 (S n)))
         end)
      (finditer false p s).

(** [a == b] between a findall item and a string. *)
Definition eq_str (v : pyval) (s : string) : bool :=
  match v with
  | PStr t => String.eqb t s
  | PTuple _ _ => false
  end.

(** [s in v]: substring test on a string, membership on a tuple. *)
Definition py_in (s : string) (v : pyval) : bool :=
  match v with
  | PStr t => contains s t
  | PTuple x xs => existsb (String.eqb s) (x :: xs)
  end.

Definition quote : ascii := ascii_of_nat 39.

(** [repr] of a string without quotes, backslashes or control characters,
    which is what a regex group of this program holds. *)
Definition repr_str (s : string) : string :=
  String quote (s ++ String quote "").

Fixpoint join (sep : string) (l : list string) : string :=
  match l with
  | [] => ""
  | [x] => x
  | x :: tl => x ++ sep ++ join sep tl
  end.

(** [str(v)], as an f-string formats it. *)
Definition py_str (v : pyval) : string :=
  match v with
  | PStr s => s
  | PTuple x [] => "(" ++ repr_str x ++ ",)"
  | PTuple x xs => "(" ++ join ", " (map repr_str (x :: xs)) ++ ")"
  end.

(** [str(n)] for a natural number. *)
Fixpoint digits_of (fuel n : nat) (acc : list ascii) : list ascii :=
  match fuel with
  | 0 => acc
  | S fuel' =>
      let acc' := ascii_of_nat (48 + n mod 10) :: acc in
      if n <? 10 then acc' else digits_of fuel' (n / 10) acc'
  end.

Definition str_of_nat (n : nat) : string := text (digits_of (S n) n []).

(** [n] in decimal, zero-padded to [w] digits. *)
Definition pad (w n : nat) : string :=
  let d := digits_of (S n) n [] in
  text (repeat "0"%char (w - List.length d) ++ d).

(** *** [float(s)]

    Decimal numerals with an optional sign and fraction; the empty string
    and every other text is a [ValueError].  The program passes only the
    text of a regex group made of a dot and digits, or the empty text. *)

Definition digit_value (c : ascii) : float :=
  nth (code c - 48) [0; 1; 2; 3; 4; 5; 6; 7; 8; 9]%float 0%float.

Fixpoint digit_run (l : list ascii) : list ascii * list ascii :=
  match l with
  | c :: tl => if is_decimal c
               then let '(d, rest) := digit_run tl in (c :: d, rest)
               else ([], l)
  | [] => ([], [])
  end.

Definition horner (ds : list ascii) : float :=
  fold_left (fun acc c => (acc * 10 + digit_value c)%float) ds 0%float.

Definition pow10 (n : nat) : float :=
  fold_left (fun acc _ => (acc * 10)%float) (repeat tt n) 1%float.

Definition float_error (s : string) : exn :=
  ValueError ("could not convert string to float: " ++ repr_str s).

Definition py_float (s : string) : result float :=
  let l := chars (strip s) in
  let '(neg, l1) :=
    match l with
    | c :: tl => if Ascii.eqb c "-" then (true, tl)
                 else if Ascii.eqb c "+" then (false, tl) else (false, l)
    | [] => (false, [])
    end in
  let '(ip, l2) := digit_run l1 in
  let '(fp, l3) :=
    match l2 with
    | c :: tl => if Ascii.eqb c "." then digit_run tl else ([], l2)
    | [] => ([], [])
    end in
  match ip ++ fp, l3 with
  | _ :: _, [] =>
      let v := (horner (ip ++ fp) / pow10 (List.length fp))%float in
      Ok (if neg then (- v)%float else v)
  | _, _ => Raise (float_error s)
  end.

(** *** [datetime] *)

Record datetime : Type := Datetime {
  year : Z; month : Z; day : Z;
  hour : Z; minute : Z; second : Z; microsecond : Z
}.

Open Scope Z_scope.

Definition is_leap (y : Z) : bool :=
  (y mod 4 =? 0) && (negb (y mod 100 =? 0) || (y mod 400 =? 0)).

Definition days_in_month_tbl : list Z :=
  [-1; 31; 28; 31; 30; 31; 30; 31; 31; 30; 31; 30; 31].

Definition days_before_month_tbl : list Z :=
  [-1; 0; 31; 59; 90; 120; 151; 181; 212; 243; 273; 304; 334].

Definition tbl (t : list Z) (i : Z) : Z := nth (Z.to_nat i) t 0.

Definition days_before_year (y : Z) : Z :=
  let y := y - 1 in y * 365 + y / 4 - y / 100 + y / 400.


Definition days_before_month (y mth : Z) : Z :=
  tbl days_before_month_tbl mth + (if (2 <? mth) && is_leap y then 1 else 0).

Definition ymd2ord (y mth d : Z) : Z :=
  days_before_year y + days_before_month y mth + d.

Definition DI400Y : Z := 146097.
Definition DI100Y : Z := 36524.
Definition DI4Y : Z := 1461.
Definition MAXORDINAL : Z := 3652059.

Definition ord2ymd (n : Z) : Z * Z * Z :=
  let n := n - 1 in
  let n400 := n / DI400Y in let n := n mod DI400Y in
  let y := n400 * 400 + 1 in
  let n100 := n / DI100Y in let n := n mod DI100Y in
  let n4 := n / DI4Y in let n := n mod DI4Y in
  let n1 := n / 365 in let n := n mod 365 in
  let y := y + n100 * 100 + n4 * 4 + n1 in
  if (n1 =? 4) || (n100 =? 4) then (y - 1, 12, 31)
  else
    let leapyear := (n1 =? 3) && (negb (n4 =? 24) || (n100 =? 3)) in
    let mth := Z.shiftr (n + 50) 5 in
    let preceding :=
      tbl days_before_month_tbl mth + (if (2 <? mth) && leapyear then 1 else 0) in
    if n <? preceding then
      let mth := mth - 1 in
      let preceding :=
        preceding
        - (tbl days_in_month_tbl mth + (if (mth =? 2) && leapyear then 1 else 0)) in
      (y, mth, n - preceding + 1)
    else (y, mth, n - preceding + 1).

(** [t + timedelta(days=n)], for [n >= 0]. *)
Definition add_days (t : datetime) (n : Z) : result datetime :=
  let o := ymd2ord (year t) (month t) (day t) + n in
  if MAXORDINAL <? o then Raise (OverflowError "date value out of range")
  else
    let '(y, mth, d) := ord2ymd o in
    Ok (Datetime y mth d (hour t) (minute t) (second t) (microsecond t)).

Definition padz (w : nat) (z : Z) : string := pad w (Z.to_nat z).

(** [t.strftime('%Y-%m-%d')] *)
Definition strftime_ymd (t : datetime) : string :=
  padz 4 (year t) ++ "-" ++ padz 2 (month t) ++ "-" ++ padz 2 (day t).

(** [t.strftime('%H:%M')] *)
Definition strftime_hm (h mi : Z) : string := padz 2 h ++ ":" ++ padz 2 mi.




(** *** [datetime.strptime]

    The format is turned into a pattern, matched ignoring case at the start
    of the text; text left over after the match is a [ValueError]. *)

Definition int_of (s : string) : Z := Z.of_nat (fst (parse_nat (chars s) 0)).

Definition strptime_match (fmt_pattern : string) (s : string) : option found :=
  match match_at true (tree (re_compile fmt_pattern)) (None, chars s) with
  | Some (c', g) =>
      match snd c' with
      | [] => Some (Found (None, chars s) c' g)
      | _ :: _ => None
      end
  | None => None
  end.

Definition fmt_I : string := "(1[0-2]|0[1-9]|[1-9])".
Definition fmt_M : string := "([0-5]\d|\d)".
Definition fmt_p : string := "(am|pm)".

Definition hour24 (h12 : Z) (ampm : string) : Z :=
  if String.eqb (lower ampm) "am"
  then (if h12 =? 12 then 0 else h12)
  else (if h12 =? 12 then 12 else h12 + 12).

(** [strptime(s, '%I:%M %p')]: hour and minute, or [None] for a [ValueError]. *)
Definition strptime_IMp (s : string) : option (Z * Z) :=
  match strptime_match (fmt_I ++ ":" ++ fmt_M ++ "\s+" ++ fmt_p) s with
  | Some f =>
      Some (hour24 (int_of (group_text f 1)) (group_text f 3),
            int_of (group_text f 2))
  | None => None
  end.

(** [strptime(s, '%I %p')] *)
Definition strptime_Ip (s : string) : option (Z * Z) :=
  match strptime_match (fmt_I ++ "\s+" ++ fmt_p) s with
  | Some f => Some (hour24 (int_of (group_text f 1)) (group_text f 2), 0)
  | None => None
  end.


Close Scope Z_scope.

End Py.

(* ------------------------------------------------------------------ *)
(** ** [class IntentClassifier] *)

Module IntentClassifier.
Import PyStr Re Py.

(** The keys of [INTENT_PATTERNS]. *)
Inductive intent : Type :=
| task_management
| budget_management
| schedule_management
| information_query
| conversation.

Definition intent_eqb (a b : intent) : bool :=
  match a, b with
  | task_management, task_management
  | budget_management, budget_management
  | schedule_management, schedule_management
  | information_query, information_query
  | conversation, conversation => true
  | _, _ => false
  end.

Definition INTENT_PATTERNS : list (intent * list string) :=
  [ (task_management,
      [ "\b(add|create|new|make)\s+(task|todo|reminder)";
        "\b(complete|finish|done|mark)\s+(task|todo)";
        "\b(delete|remove|cancel)\s+(task|todo)";
        "\b(show|list|view)\s+(tasks|todos)";
        "\b(update|edit|change)\s+(task|todo)";
        "\bdeadline\b";
        "\bpriority\b";
        "\bdue\s+(by|on|before)" ]);
    (budget_management,
      [ "\b(spent|spend|cost|paid|pay)\s*\$?\d+";
        "\b(earned|income|salary|received)\s*\$?\d+";
        "\b(budget|expense|expenses|spending)";
        "\b(track|record|log)\s+(expense|spending|income)";
        "\b(show|view|check)\s+(budget|expenses|spending)";
        "\$\d+" ]);
    (schedule_management,
      [ "\b(schedule|appointment|meeting|event)";
        "\b(calendar|agenda)";
        "\b(remind|reminder)\s+me";
        "\b(at|on|from|until)\s+\d{1,2}(:\d{2})?\s*(am|pm)";
        "\b(today|tomorrow|next\s+week|monday|tuesday|wednesday|thursday|friday|saturday|sunday)";
        "\b(book|reserve|plan)" ]);
    (information_query,
      [ "\b(what|when|where|how|why|who)";
        "\b(show|tell|explain|describe)";
        "\b(status|summary|overview|report)";
        "\b(help|assist|support)" ]);
    (conversation,
      [ "\b(hello|hi|hey|good\s+(morning|afternoon|evening))";
        "\b(thank|thanks|appreciate)";
        "\b(how\s+are\s+you|what\'s\s+up)";
        "\b(bye|goodbye|see\s+you)" ]) ].

(** The inner loop: does one of the patterns match ([break] at the first)? *)
Definition any_pattern (patterns : list string) (text_lower : string) : bool :=
  existsb (fun pattern => matches (re_compile pattern) text_lower) patterns.

Definition mem (i : intent) (l : list intent) : bool := existsb (intent_eqb i) l.

(** One turn of the outer loop over [INTENT_PATTERNS.items()]. *)
Definition classify_step (text_lower : string) (detected_intents : list intent)
  (entry : intent * list string) : list intent :=
  let '(i, patterns) := entry in
  if any_pattern patterns text_lower then
    if mem i detected_intents then detected_intents
    else detected_intents ++ [i]
  else detected_intents.

Definition classify_intent (text : string) : list intent :=
  let text_lower := lower text in
  let detected_intents := fold_left (classify_step text_lower) INTENT_PATTERNS [] in
  match detected_intents with
  | [] => [conversation]
  | _ :: _ => detected_intents
  end.

End IntentClassifier.

(* ------------------------------------------------------------------ *)
(** ** [class AdvancedEntityExtractor] *)

Module AdvancedEntityExtractor.
Import PyStr Re Py.

Definition date_patterns : list string :=
  [ "\b(today|tomorrow)\b";
    "\b(next|this)\s+(week|month|monday|tuesday|wednesday|thursday|friday|saturday|sunday)\b";
    "\b\d{1,2}[/-]\d{1,2}[/-]\d{2,4}\b";
    "\b(january|february|march|april|may|june|july|august|september|october|november|december)\s+\d{1,2}\b";
    "\bin\s+\d+\s+(days?|weeks?|months?)\b" ].

Definition time_patterns : list string :=
  [ "\b\d{1,2}(:\d{2})?\s*(am|pm)\b";
    "\b(morning|afternoon|evening|night)\b";
    "\bat\s+\d{1,2}(:\d{2})?\b" ].

Definition amount_patterns : list string :=
  [ "\$\d+(\.\d{2})?";
    "\b\d+\s*dollars?\b";
    "\b\d+(\.\d{2})?\s*bucks?\b" ].

Definition priority_patterns : list string :=
  [ "\b(urgent|asap|immediately|critical|high\s+priority)\b";
    "\b(important|medium\s+priority)\b";
    "\b(low\s+priority|when\s+possible|eventually)\b" ].

(** [_normalize_dates], one item of the loop; [today] is [datetime.now()]. *)
Definition normalize_date (today : datetime) (date_str : pyval) : result pyval :=
  if eq_str date_str "today" then Ok (PStr (strftime_ymd today))
  else if eq_str date_str "tomorrow" then
    t <- add_days today 1 ;; Ok (PStr (strftime_ymd t))
  else if py_in "next week" date_str then
    t <- add_days today 7 ;; Ok (PStr (strftime_ymd t))
  else if py_in "next month" date_str then
    t <- add_days today 30 ;; Ok (PStr (strftime_ymd t))
  else Ok date_str.

Fixpoint _normalize_dates (today : datetime) (date_strings : list pyval)
  : result (list pyval) :=
  match date_strings with
  | [] => Ok []
  | date_str :: rest =>
      d <- normalize_date today date_str ;;
      ds <- _normalize_dates today rest ;;
      Ok (d :: ds)
  end.

Definition extract_dates (now : datetime) (text : string) : result (list pyval) :=
  let text_lower := lower text in
  let dates :=
    fold_left (fun dates pattern => dates ++ findall (re_compile pattern) text_lower)
              date_patterns [] in
  _normalize_dates now dates.

(** [match[0] if isinstance(match, tuple) else match] *)
Definition first_or_self (v : pyval) : string :=
  match v with
  | PTuple x _ => x
  | PStr s => s
  end.

Definition extract_times (text : string) : list string :=
  let text_lower := lower text in
  fold_left (fun times pattern =>
               times ++ map first_or_self (findall (re_compile pattern) text_lower))
            time_patterns [].

(** The body of the inner loop of [extract_amounts] for one match. *)
Definition amount_of (amounts : list float) (mt : pyval) : result (list float) :=
  match mt with
  | PTuple _ _ => Raise (TypeError "expected string or bytes-like object")
  | PStr s =>
      match findall (re_compile "\d+(\.\d{2})?") s with
      | [] => Ok amounts
      | numeric0 :: _ =>
          v <- py_float (first_or_self numeric0) ;;
          Ok (amounts ++ [v])
      end
  end.

Fixpoint amounts_of (amounts : list float) (found : list pyval)
  : result (list float) :=
  match found with
  | [] => Ok amounts
  | mt :: rest => a <- amount_of amounts mt ;; amounts_of a rest
  end.

Fixpoint amounts_over (amounts : list float) (patterns : list string) (text : string)
  : result (list float) :=
  match patterns with
  | [] => Ok amounts
  | pattern :: rest =>
      a <- amounts_of amounts (findall (re_compile pattern) text) ;;
      amounts_over a rest text
  end.

Definition extract_amounts (text : string) : result (list float) :=
  amounts_over [] amount_patterns text.

Definition priority_pattern (i : nat) : pattern :=
  re_compile (nth i priority_patterns "").

Definition extract_priority (text : string) : Z :=
  let text_lower := lower text in
  if matches (priority_pattern 0) text_lower then 4%Z
  else if matches (priority_pattern 1) text_lower then 3%Z
  else if matches (priority_pattern 2) text_lower then 1%Z
  else 2%Z.

End AdvancedEntityExtractor.

(* ------------------------------------------------------------------ *)
(** ** [class ContextAwareProcessor] *)

Module ContextAwareProcessor.
Import PyStr Re Py IntentClassifier AdvancedEntityExtractor.

(** The [context] mapping; no rule reads it. *)
Definition context : Type := list (string * string).

(** The [entities] dict of a result. *)
Record entities : Type := Entities {
  dates : list pyval;
  times : list string;
  amounts : list float;
  priority : Z
}.

(** A proposed action, by its ['type'], with the fields of its ['data']. *)
Inductive action : Type :=
| create_task (task : string) (prio : Z) (deadline : option pyval) (category : string)
| complete_task (task_query : string)
| list_tasks (filter : string)
| add_expense (amount : float) (description category : string) (date : pyval)
| add_income (amount : float) (description : string) (date : pyval)
| show_budget_summary
| create_event (title : string) (start_time : option string)
               (description location : string)
| set_reminder (title : string) (time : option string) (description : string)
| generate_summary (query : string).

(** What [process_complex_input] returns. *)
Record interpretation : Type := Interpretation {
  intents : list intent;
  entities_of : entities;
  actions : list action;
  confidence : float
}.

Definition is_nil {A : Type} (l : list A) : bool :=
  match l with [] => true | _ :: _ => false end.

Definition _calculate_confidence (intents : list intent) (text : string) : float :=
  if is_nil intents || mem conversation intents then 0.6%float
  else
    let specific_intents :=
      List.filter (fun i => negb (intent_eqb i conversation)) intents in
    if 2 <=? List.length specific_intents then 0.9%float
    else if List.length specific_intents =? 1 then 0.8%float
    else 0.6%float.

(** *** Helper methods *)

Definition re_sub (pattern : string) (ignorecase : bool) (s : string) : string :=
  sub_empty ignorecase (re_compile pattern) s.

Definition _extract_task_description (text : string) : string :=
  let cleaned := re_sub "\b(add|create|new|make|task|todo|reminder)\b" true text in
  let cleaned := re_sub "\b(urgent|important|high|low|priority)\b" true cleaned in
  let cleaned := re_sub "\b(today|tomorrow|next\s+week|by\s+\w+)\b" true cleaned in
  strip cleaned.

Definition _extract_expense_description (text : string) : string :=
  let cleaned := re_sub "\$\d+(\.\d{2})?" false text in
  let cleaned := re_sub "\b(spent|spend|cost|paid|pay|for|on)\b" true cleaned in
  strip cleaned.

Definition _extract_income_description (text : string) : string :=
  let cleaned := re_sub "\$\d+(\.\d{2})?" false text in
  let cleaned := re_sub "\b(earned|income|salary|received|from)\b" true cleaned in
  strip cleaned.

Definition _extract_event_title (text : string) : string :=
  let cleaned := re_sub "\b(schedule|book|plan|appointment|meeting|event)\b" true text in
  let cleaned :=
    re_sub "\b(at|on|from|until)\s+\d{1,2}(:\d{2})?\s*(am|pm)?\b" true cleaned in
  strip cleaned.

Definition _extract_reminder_title (text : string) : string :=
  strip (re_sub "\b(remind|reminder|me|to)\b" true text).

Definition _extract_location (text : string) : string :=
  match search_flags true (re_compile "\b(at|in|@)\s+([^,\n]+)") text with
  | Some location_match => strip (group_text location_match 2)
  | None => ""
  end.

Definition _infer_category (text : string) : string :=
  let text_lower := lower text in
  if any_in ["work"; "office"; "meeting"; "project"; "deadline"] text_lower then "Work"
  else if any_in ["doctor"; "gym"; "exercise"; "health"; "medicine"] text_lower then "Health"
  else if any_in ["learn"; "study"; "course"; "book"; "research"] text_lower then "Learning"
  else if any_in ["bill"; "payment"; "bank"; "money"; "budget"] text_lower then "Finance"
  else "Personal".

Definition _infer_expense_category (text : string) : string :=
  let text_lower := lower text in
  if any_in ["food"; "restaurant"; "lunch"; "dinner"; "coffee"; "grocery"] text_lower
  then "Food"
  else if any_in ["gas"; "uber"; "taxi"; "bus"; "train"; "transport"] text_lower
  then "Transport"
  else if any_in ["movie"; "game"; "entertainment"; "concert"; "show"] text_lower
  then "Entertainment"
  else if any_in ["electric"; "water"; "internet"; "phone"; "utility"] text_lower
  then "Utilities"
  else if any_in ["doctor"; "medicine"; "pharmacy"; "health"] text_lower
  then "Healthcare"
  else "Other".

Definition _extract_task_filter (text : string) : string :=
  let text_lower := lower text in
  if contains "urgent" text_lower || contains "high priority" text_lower
  then "high_priority"
  else if contains "today" text_lower then "today"
  else if contains "overdue" text_lower then "overdue"
  else "all".

(** [None] is Python's [None]; [now] is the clock the call reads. *)
Definition _combine_date_time (now : datetime) (dates : list pyval)
  (times : list string) : option string :=
  match dates, times with
  | [], [] => None
  | _, _ =>
      let date_str :=
        match dates with
        | d :: _ => py_str d
        | [] => strftime_ymd now
        end in
      let time_str := match times with t :: _ => t | [] => "09:00" end in
      let time_str :=
        if contains "am" (lower time_str) || contains "pm" (lower time_str)
        then lower time_str
        else (time_str ++ ":00")%string in
      if contains "am" time_str || contains "pm" time_str then
        match (if contains ":" time_str then strptime_IMp time_str
               else strptime_Ip time_str) with
        | Some (h, mi) => Some (date_str ++ " " ++ strftime_hm h mi)%string
        | None => Some (date_str ++ " 09:00")%string
        end
      else Some (date_str ++ " " ++ time_str)%string
  end.

(** *** Action synthesis *)

Definition first_date (e : entities) : option pyval :=
  match dates e with d :: _ => Some d | [] => None end.

Definition date_or_today (now : datetime) (e : entities) : pyval :=
  match dates e with d :: _ => d | [] => PStr (strftime_ymd now) end.

Definition _generate_task_actions (text : string) (e : entities) (ctx : context)
  : list action :=
  let text_lower := lower text in
  if any_in ["add"; "create"; "new"; "make"] text_lower then
    [create_task (_extract_task_description text) (priority e) (first_date e)
                 (_infer_category text)]
  else if any_in ["complete"; "finish"; "done"; "mark"] text_lower then
    [complete_task text]
  else if any_in ["show"; "list"; "view"] text_lower then
    [list_tasks (_extract_task_filter text)]
  else [].

Definition _generate_budget_actions (now : datetime) (text : string) (e : entities)
  (ctx : context) : list action :=
  let text_lower := lower text in
  match amounts e with
  | a :: _ =>
      if any_in ["spent"; "spend"; "cost"; "paid"; "pay"] text_lower then
        [add_expense a (_extract_expense_description text)
                     (_infer_expense_category text) (date_or_today now e)]
      else if any_in ["earned"; "income"; "salary"; "received"] text_lower then
        [add_income a (_extract_income_description text) (date_or_today now e)]
      else if any_in ["show"; "view"; "check"; "summary"] text_lower then
        [show_budget_summary]
      else []
  | [] =>
      if any_in ["show"; "view"; "check"; "summary"] text_lower then
        [show_budget_summary]
      else []
  end.

Definition _generate_schedule_actions (now : datetime) (text : string) (e : entities)
  (ctx : context) : list action :=
  let text_lower := lower text in
  if any_in ["schedule"; "book"; "plan"; "appointment"; "meeting"] text_lower then
    [create_event (_extract_event_title text)
                  (_combine_date_time now (dates e) (times e))
                  text (_extract_location text)]
  else if any_in ["remind"; "reminder"] text_lower then
    [set_reminder (_extract_reminder_title text)
                  (_combine_date_time now (dates e) (times e)) text]
  else [].

Definition _generate_query_actions (text : string) (e : entities) (ctx : context)
  : list action :=
  let text_lower := lower text in
  if any_in ["status"; "summary"; "overview"; "report"] text_lower then
    [generate_summary text]
  else [].

Definition _generate_actions_for_intent (now : datetime) (i : intent) (text : string)
  (e : entities) (ctx : context) : list action :=
  match i with
  | task_management => _generate_task_actions text e ctx
  | budget_management => _generate_budget_actions now text e ctx
  | schedule_management => _generate_schedule_actions now text e ctx
  | information_query => _generate_query_actions text e ctx
  | conversation => []
  end.

(** [now] is the clock, read by the date normalisation and the defaults. *)
Definition process_complex_input (now : datetime) (user_input : string)
  (ctx : option context) : result interpretation :=
  let ctx := match ctx with Some c => c | None => [] end in
  let intents := classify_intent user_input in
  dates <- extract_dates now user_input ;;
  let times := extract_times user_input in
  amounts <- extract_amounts user_input ;;
  let priority := extract_priority user_input in
  let e := Entities dates times amounts priority in
  let confidence := _calculate_confidence intents user_input in
  let actions :=
    fold_left (fun acts i =>
                 acts ++ _generate_actions_for_intent now i user_input e ctx)
              intents [] in
  Ok (Interpretation intents e actions confidence).

(** [process_user_input], the module-level entry point. *)
Definition process_user_input (now : datetime) (user_input : string)
  (ctx : option context) : result interpretation :=
  process_complex_input now user_input ctx.

End ContextAwareProcessor.

(* ------------------------------------------------------------------ *)
(** ** [get_smart_suggestions] *)

Module Suggestions.
Import PyStr Re Py.

(** A task of [shared.tasks], with the two keys the function reads:
    [task.get('done', False)] and [task.get('deadline')]. *)
Record task : Type := Task {
  task_done : bool;
  task_deadline : option string
}.






Section Generator.

(** [f"{x:.2f}"] *)
Variable format_2f : float -> string.












(** *** The rules, one by one

    The six rules taken apart, each giving at most one string; [produced]
    lists what fires, in rule order. *)












End Generator.

End Suggestions.

(* ------------------------------------------------------------------ *)
(** ** Notions the statements below use *)

Module Spec.
Import PyStr Re Py IntentClassifier AdvancedEntityExtractor ContextAwareProcessor.

(** The categories in the order [INTENT_PATTERNS] declares them. *)
Definition declaration_order : list intent := map fst INTENT_PATTERNS.

Definition patterns_of (i : intent) : list string :=
  match find (fun e => intent_eqb (fst e) i) INTENT_PATTERNS with
  | Some e => snd e
  | None => []
  end.

(** One of the patterns of category [i] matches the lower-cased text. *)
Definition category_matches (i : intent) (text : string) : bool :=
  any_pattern (patterns_of i) (lower text).

(** [l1] is [l2] with some elements left out, order kept. *)
Inductive Subseq {A : Type} : list A -> list A -> Prop :=
| Subseq_nil : Subseq [] []
| Subseq_skip x l1 l2 : Subseq l1 l2 -> Subseq l1 (x :: l2)
| Subseq_take x l1 l2 : Subseq l1 l2 -> Subseq (x :: l1) (x :: l2).

(** The intents other than [conversation]. *)
Definition specific (l : list intent) : list intent :=
  List.filter (fun i => negb (intent_eqb i conversation)) l.


(** The urgent-class words on their own. *)
Definition urgent_words : pattern :=
  re_compile "\b(urgent|asap|immediately|critical)\b".

(** Whenever [r] matches in some context, so does [r']. *)
Definition weaker (r r' : regex) : Prop :=
  forall ic c g k, m ic r c g k <> None -> m ic r' c g k <> None.

(** Every pattern string of the program. *)
Definition all_patterns : list string :=
  List.concat (map snd INTENT_PATTERNS)
  ++ date_patterns ++ time_patterns ++ amount_patterns ++ priority_patterns
  ++ [ "\d+(\.\d{2})?";
       "\b(add|create|new|make|task|todo|reminder)\b";
       "\b(urgent|important|high|low|priority)\b";
       "\b(today|tomorrow|next\s+week|by\s+\w+)\b";
       "\$\d+(\.\d{2})?";
       "\b(spent|spend|cost|paid|pay|for|on)\b";
       "\b(earned|income|salary|received|from)\b";
       "\b(schedule|book|plan|appointment|meeting|event)\b";
       "\b(at|on|from|until)\s+\d{1,2}(:\d{2})?\s*(am|pm)?\b";
       "\b(remind|reminder|me|to)\b";
       "\b(at|in|@)\s+([^,\n]+)";
       "\b(urgent|asap|immediately|critical)\b" ].

Definition parses (p : string) : bool :=
  match parse p with Some _ => true | None => false end.

(** A clock reading for the examples: 1 May 2024, 10:00. *)
Definition a_wednesday : datetime := Datetime 2024 5 1 10 0 0 0.

Definition empty_message_error : exn :=
  ValueError "could not convert string to float: ''".

End Spec.

(* ------------------------------------------------------------------ *)
(** ** What a match is: a relational reading of the patterns *)

Module ReSem.
Import PyStr Re.

(** A relation between the position and groups before and after. *)
Definition step : Type := cursor -> caps -> cursor -> caps -> Prop.

(** [n] rounds of [R], one after the other. *)
Fixpoint iter (R : step) (n : nat) : step :=
  fun c g c' g' =>
    match n with
    | 0 => c' = c /\ g' = g
    | S n' => exists c1 g1, R c g c1 g1 /\ iter R n' c1 g1 c' g'
    end.

(** The number of rounds a repetition allows. *)
Definition within (lo : nat) (hi : option nat) (n : nat) : Prop :=
  lo <= n /\ match hi with Some h => n <= Nat.max lo h | None => True end.

(** [sem ic r c g c' g']: [r] can take the matcher from [c] with groups [g]
    to [c'] with groups [g'].  Which of the possible matches is found first
    is the matcher's business; this says what any of them looks like. *)
Fixpoint sem (ic : bool) (r : regex) : step :=
  fun c g c' g' =>
    match r with
    | REmpty => c' = c /\ g' = g
    | RFail => False
    | RSet cs =>
        exists x tl, snd c = x :: tl /\ cset_mem ic cs x = true
                     /\ c' = (Some x, tl) /\ g' = g
    | RWordB => at_boundary c = true /\ c' = c /\ g' = g
    | RCat r1 r2 => exists c1 g1, sem ic r1 c g c1 g1 /\ sem ic r2 c1 g1 c' g'
    | RAlt r1 r2 => sem ic r1 c g c' g' \/ sem ic r2 c g c' g'
    | RGroup n r1 => exists g1, sem ic r1 c g c' g1 /\ g' = (n, consumed c c') :: g1
    | RRep r1 lo hi => exists n, within lo hi n /\ iter (sem ic r1) n c g c' g'
    end.

(** The loop of a repetition, with the matcher of its body as a parameter. *)
Definition rep_loop (body : cursor -> caps -> kont -> option (cursor * caps))
  (lo : nat) (hi : option nat) (k : kont)
  : nat -> nat -> option nat -> cursor -> caps -> option (cursor * caps) :=
  fix loop (fuel count : nat) (last : option nat) (c : cursor) (g : caps)
    {struct fuel} : option (cursor * caps) :=
    match fuel with
    | 0 => None
    | S fuel' =>
        let here := List.length (snd c) in
        let again :=
          body c g (fun c' g' => loop fuel' (S count) (Some here) c' g') in
        if count <? lo then again
        else
          let below := match hi with Some h => count <? h | None => true end in
          let moved := match last with Some p => negb (p =? here) | None => true end in
          if below && moved then
            match again with
            | Some res => Some res
            | None => k c g
            end
          else k c g
    end.

(** The groups of a pattern, with their bodies. *)
Fixpoint groups_of (r : regex) : list (nat * regex) :=
  match r with
  | RGroup n b => (n, b) :: groups_of b
  | RCat a b => groups_of a ++ groups_of b
  | RAlt a b => groups_of a ++ groups_of b
  | RRep b _ _ => groups_of b
  | _ => []
  end.

(** Some character set of the pattern accepts [x] (case-sensitively). *)
Fixpoint may_consume (r : regex) (x : ascii) : bool :=
  match r with
  | RSet cs => cset_mem false cs x
  | RCat a b => may_consume a x || may_consume b x
  | RAlt a b => may_consume a x || may_consume b x
  | RGroup _ b => may_consume b x
  | RRep b _ _ => may_consume b x
  | _ => false
  end.

Definition all_ascii : list ascii := map ascii_of_nat (seq 0 256).

Definition chars_of (cs : cset) : list ascii :=
  List.filter (cset_mem false cs) all_ascii.

Definition cat_words (A B : list (list ascii)) : list (list ascii) :=
  flat_map (fun a => map (app a) B) A.

Fixpoint power (A : list (list ascii)) (n : nat) : list (list ascii) :=
  match n with
  | 0 => [[]]
  | S n' => cat_words A (power A n')
  end.

(** The texts a pattern without unbounded repetition can consume
    (case-sensitively), when there are finitely many. *)
Fixpoint enum (r : regex) : option (list (list ascii)) :=
  match r with
  | REmpty => Some [[]]
  | RWordB => Some [[]]
  | RFail => Some []
  | RSet cs => Some (map (fun x => [x]) (chars_of cs))
  | RCat a b =>
      match enum a, enum b with
      | Some A, Some B => Some (cat_words A B)
      | _, _ => None
      end
  | RAlt a b =>
      match enum a, enum b with
      | Some A, Some B => Some (A ++ B)
      | _, _ => None
      end
  | RGroup _ b => enum b
  | RRep b lo (Some h) =>
      match enum b with
      | Some B => Some (flat_map (power B) (seq lo (S (Nat.max lo h - lo))))
      | None => None
      end
  | RRep _ _ None => None
  end.

(** The texts group [n] of a pattern can hold. *)
Definition group_words (r : regex) (n : nat) : option (list (list ascii)) :=
  fold_right
    (fun (e : nat * regex) acc =>
       if fst e =? n then
         match enum (snd e), acc with
         | Some B, Some A => Some (B ++ A)
         | _, _ => None
         end
       else acc)
    (Some []) (groups_of r).

(** A group entry is justified by a match of a body of that group
    somewhere in the subject that follows [l]. *)
Definition justified (ic : bool) (r : regex) (l : list ascii)
  (e : nat * list ascii) : Prop :=
  exists b c1 g1 c2 g2 pre,
    In (fst e, b) (groups_of r) /\ sem ic b c1 g1 c2 g2
    /\ l = pre ++ snd c1 /\ snd c1 = snd e ++ snd c2.

End ReSem.

(* ------------------------------------------------------------------ *)
(** ** Notions for the properties of the extractors and the processor *)

Module Facts.
Import PyStr Re Py IntentClassifier AdvancedEntityExtractor ContextAwareProcessor.
Import ReSem.

(** [P] holds of every text group [n] of the pattern can hold. *)
Definition group_all (p : pattern) (n : nat) (P : string -> bool) : bool :=
  match group_words (tree p) n with
  | Some L => forallb (fun w => P (text w)) L
  | None => false
  end.

(** The two outcomes of amount extraction. *)
Definition no_amount (r : result (list float)) : Prop :=
  r = Ok [] \/ r = Raise (ValueError "could not convert string to float: ''").

Definition no_amountb (r : result (list float)) : bool :=
  match r with
  | Ok [] => true
  | Raise (ValueError msg) =>
      String.eqb msg "could not convert string to float: ''"
  | _ => false
  end.

Definition numeric_pattern : pattern := re_compile "\d+(\.\d{2})?".

Definition starts_with_dot (s : string) : bool :=
  match s with
  | String c _ => Ascii.eqb c "."
  | EmptyString => false
  end.

Definition amount_pattern (i : nat) : pattern := re_compile (nth i amount_patterns "").
Definition time_pattern (i : nat) : pattern := re_compile (nth i time_patterns "").
Definition date_pattern (i : nat) : pattern := re_compile (nth i date_patterns "").

(** The shape of an extracted time: empty, a colon and two digits, or one
    of the four words. *)
Definition time_shape (t : string) : bool :=
  match chars t with
  | [] => true
  | [c; d1; d2] => Ascii.eqb c ":" && is_decimal d1 && is_decimal d2
  | _ => existsb (String.eqb t) ["morning"; "afternoon"; "evening"; "night"]
  end.

(** A time that [_combine_date_time] takes as it is, adding ":00". *)
Definition plain_time (t : string) : bool :=
  negb (contains "am" (lower t)) && negb (contains "pm" (lower t))
  && negb (contains "am" (t ++ ":00")) && negb (contains "pm" (t ++ ":00")).

(** The [dates] list of [extract_dates], before normalisation. *)
Definition raw_dates (text : string) : list pyval :=
  fold_left (fun dates pattern => dates ++ findall (re_compile pattern) (lower text))
            date_patterns [].

(** A text on which neither relative-phrase branch of [_normalize_dates]
    fires. *)
Definition no_phrase (s : string) : bool :=
  negb (contains "next week" s) && negb (contains "next month" s).

Definition not_phrase (s : string) : bool :=
  negb (String.eqb "next week" s) && negb (String.eqb "next month" s).

(** The items of the raw list on which no relative-phrase branch fires. *)
Definition dead (v : pyval) : Prop :=
  py_in "next week" v = false /\ py_in "next month" v = false.

(** The only replacements date extraction makes. *)
Definition today_or_tomorrow (today tomorrow : datetime) (v : pyval) : pyval :=
  if eq_str v "today" then PStr (strftime_ymd today)
  else if eq_str v "tomorrow" then PStr (strftime_ymd tomorrow)
  else v.

(** What [_combine_date_time] gives when it takes the time as it is. *)
Definition plain_combination (now : datetime) (dates : list pyval)
  (times : list string) : option string :=
  match dates, times with
  | [], [] => None
  | _, _ =>
      Some ((match dates with d :: _ => py_str d | [] => strftime_ymd now end)
            ++ " " ++ (match times with t :: _ => t | [] => "09:00" end)
            ++ ":00")%string
  end.

Definition is_budget_entry (a : action) : bool :=
  match a with
  | add_expense _ _ _ _ => true
  | add_income _ _ _ => true
  | _ => false
  end.

(** The intent an action kind belongs to. *)
Definition intent_of (a : action) : intent :=
  match a with
  | create_task _ _ _ _ => task_management
  | complete_task _ => task_management
  | list_tasks _ => task_management
  | add_expense _ _ _ _ => budget_management
  | add_income _ _ _ => budget_management
  | show_budget_summary => budget_management
  | create_event _ _ _ _ => schedule_management
  | set_reminder _ _ _ => schedule_management
  | generate_summary _ => information_query
  end.

(** The actions of a result, intent by intent. *)
Definition actions_for (now : datetime) (text : string) (e : entities)
  (ctx : context) (l : list intent) : list action :=
  flat_map (fun i => _generate_actions_for_intent now i text e ctx) l.

(** What [process_complex_input] builds once the extractions returned. *)
Definition result_with (now : datetime) (text : string) (ctx : context)
  (dates : list pyval) (amounts : list float) : interpretation :=
  let e := Entities dates (extract_times text) amounts (extract_priority text) in
  Interpretation (classify_intent text) e
                 (actions_for now text e ctx (classify_intent text))
                 (_calculate_confidence (classify_intent text) text).

Definition context_or_empty (ctx : option context) : context :=
  match ctx with Some c => c | None => [] end.

(** Neither the first nor the last character is white space. *)
Definition trimmed (s : string) : Prop :=
  (forall c, hd_error (chars s) = Some c -> is_space c = false)
  /\ (forall c, hd_error (rev (chars s)) = Some c -> is_space c = false).

(** The characters of [s] are characters of [t], in the same order. *)
Definition only_deletes (s t : string) : Prop := Spec.Subseq (chars s) (chars t).

(** The start time of a scheduling action. *)
Definition start_of (a : action) : option (option string) :=
  match a with
  | create_event _ st _ _ => Some st
  | set_reminder _ st _ => Some st
  | _ => None
  end.

(** The date [_combine_date_time] starts from. *)
Definition date_part (now : datetime) (dates : list pyval) : string :=
  match dates with d :: _ => py_str d | [] => strftime_ymd now end.

(** What [_combine_date_time] makes of the time it starts from. *)
Definition time_part (t : string) : string :=
  let t1 :=
    if contains "am" (lower t) || contains "pm" (lower t) then lower t
    else (t ++ ":00")%string in
  if contains "am" t1 || contains "pm" t1 then
    match (if contains ":" t1 then strptime_IMp t1 else strptime_Ip t1) with
    | Some (h, mi) => strftime_hm h mi
    | None => "09:00"
    end
  else t1.

(** A 12-hour clock time as a user writes it: "7:05 pm". *)
Definition clock_text (h mi : nat) (pm : bool) : string :=
  str_of_nat h ++ ":" ++ pad 2 mi ++ (if pm then " pm" else " am").

Definition hour_24 (h : nat) (pm : bool) : nat :=
  if pm then (if h =? 12 then 12 else h + 12)
  else (if h =? 12 then 0 else h).

Definition clock_24 (h mi : nat) (pm : bool) : string :=
  pad 2 (hour_24 h pm) ++ ":" ++ pad 2 mi.

(** The checks behind the statement about clock times. *)
Definition clock_ok (h mi : nat) : bool :=
  forallb (fun pm => String.eqb (time_part (clock_text h mi pm)) (clock_24 h mi pm))
          [true; false].

Definition clock_rejected (h mi : nat) : bool :=
  forallb (fun pm => String.eqb (time_part (clock_text h mi pm)) "09:00")
          [true; false].

End Facts.

Module SuggestionFacts.
Import Suggestions.


End SuggestionFacts.


(* ------------------------------------------------------------------ *)
(** ** Results *)

Import PyStr Re Py IntentClassifier AdvancedEntityExtractor ContextAwareProcessor.
Import Spec.

(** No pattern of the program falls outside the syntax [parse] reads. *)
Lemma patterns_parse : forallb parses all_patterns = true.
Proof. vm_compute. reflexivity. Qed.


(** *** Amount extraction *)

(** C1. The claim is that no exception escapes [extract_amounts] or
    [process]; on an amount with a decimal part the code raises a
    [ValueError]: [extract_amounts "$45.50"] raises, and so does
    [process] on "I spent $45.50 on lunch", whatever the clock and the
    context. *)
Theorem process_raises_on_decimal_amount :
  extract_amounts "$45.50" = Raise empty_message_error /\
  forall (now : datetime) (ctx : option context),
    process_complex_input now "I spent $45.50 on lunch" ctx
    = Raise empty_message_error.
Proof.
  split.
  - vm_compute. reflexivity.
  - intros now ctx. vm_compute. reflexivity.
Qed.

(** C3. The claim is that [extract_amounts "I spent $45.50 on lunch"] is
    [[45.50]]; the code raises a [ValueError] there ([float] is handed the
    empty text of a group that took no part in the match).  On
    "no money mentioned" it returns the empty list, as claimed. *)
Theorem extract_amounts_examples :
  extract_amounts "I spent $45.50 on lunch" = Raise empty_message_error /\
  extract_amounts "no money mentioned" = Ok [].
Proof. split; vm_compute; reflexivity. Qed.

(** *** Date extraction *)

(** C4. The claim is that a matched "next week" becomes the current date
    plus 7 days; the code returns the pair of group texts untouched,
    whatever the clock, and likewise for "next month". *)
Theorem extract_dates_next_week_not_normalized :
  forall now : datetime,
    extract_dates now "next week" = Ok [PTuple "next" ["week"]] /\
    extract_dates now "next month" = Ok [PTuple "next" ["month"]].
Proof. intro now. split; vm_compute; reflexivity. Qed.

(** *** Combining a date and a time *)

(** C5. The claim is that [combine_date_time(["2024-05-01"], [])] is
    "2024-05-01 09:00"; the code appends ":00" to the default time and
    returns "2024-05-01 09:00:00", whatever the clock. *)
Theorem combine_date_time_default_time :
  forall now : datetime,
    _combine_date_time now [PStr "2024-05-01"] [] = Some "2024-05-01 09:00:00".
Proof. intro now. vm_compute. reflexivity. Qed.

(** *** Classification examples *)

(** C6, as stated, fails: the result on "hello there, how are you" is not
    the singleton [[conversation]]. *)
Lemma classify_greeting_not_singleton :
  classify_intent "hello there, how are you" <> [conversation].
Proof. vm_compute. discriminate. Qed.

(** C6, amended. [classify("hello there, how are you")] is exactly
    [[information_query; conversation]]: "how" matches a query pattern and
    "hello" a conversation pattern. *)
Theorem classify_greeting :
  classify_intent "hello there, how are you" = [information_query; conversation].
Proof. vm_compute. reflexivity. Qed.

(** *** The empty input *)

(** C10. [process("")] is the fully defaulted result: intents
    [[conversation]], no dates, times or amounts, priority 2, no actions,
    confidence 0.6; for every clock and context. *)
Theorem process_empty_input :
  forall (now : datetime) (ctx : option context),
    process_complex_input now "" ctx
    = Ok (Interpretation [conversation] (Entities [] [] [] 2%Z) [] 0.6%float).
Proof. intros now ctx. vm_compute. reflexivity. Qed.

(** [_combine_date_time] returns [None] exactly when both lists are empty. *)
Lemma combine_date_time_none_iff :
  forall (now : datetime) (dates : list pyval) (times : list string),
    _combine_date_time now dates times = None <-> dates = [] /\ times = [].
Proof.
  intros now dates times. split.
  - unfold _combine_date_time.
    destruct dates as [|d ds], times as [|t ts]; intro H; try (split; reflexivity);
      exfalso;
      repeat match type of H with
             | context [if ?b then _ else _] => destruct b
             | context [match ?o with Some _ => _ | None => _ end] => destruct o as [[? ?]|]
             end; discriminate H.
  - intros [-> ->]. reflexivity.
Qed.

(** *** The classifier *)

Lemma intent_eqb_eq (a b : intent) : intent_eqb a b = true <-> a = b.
Proof.
  destruct a, b; simpl; split; intro H;
    try reflexivity; try discriminate H.
Qed.

Lemma mem_In (i : intent) (l : list intent) : mem i l = true <-> In i l.
Proof.
  unfold mem. rewrite existsb_exists. split.
  - intros [x [Hx E]]. apply intent_eqb_eq in E. subst x. exact Hx.
  - intro H. exists i. split; [exact H | apply intent_eqb_eq; reflexivity].
Qed.

(** The outer loop over a table whose keys are distinct and not yet
    detected appends the keys of the entries that match, in table order. *)
Lemma fold_classify_step (t : string) (tbl : list (intent * list string)) :
  forall acc : list intent,
    NoDup (map fst tbl) ->
    (forall i, In i acc -> ~ In i (map fst tbl)) ->
    fold_left (classify_step t) tbl acc
    = acc ++ map fst (List.filter (fun e => any_pattern (snd e) t) tbl).
Proof.
  induction tbl as [|[i ps] tbl IH]; intros acc ND Hfresh.
  - simpl. rewrite app_nil_r. reflexivity.
  - inversion ND as [|x xs Hnotin ND']; subst.
    cbn [fold_left List.filter map fst snd]. unfold classify_step at 2.
    destruct (any_pattern ps t) eqn:E.
    + assert (M : mem i acc = false).
      { destruct (mem i acc) eqn:M; [|reflexivity].
        apply mem_In in M. exfalso. apply (Hfresh i M). left. reflexivity. }
      rewrite M, IH.
      * cbn [map fst]. rewrite <- app_assoc. reflexivity.
      * exact ND'.
      * intros j Hj Hin. apply in_app_or in Hj. destruct Hj as [Hj|[Hj|[]]].
        -- apply (Hfresh j Hj). right. exact Hin.
        -- subst j. exact (Hnotin Hin).
    + apply IH; [exact ND'|].
      intros j Hj Hin. apply (Hfresh j Hj). right. exact Hin.
Qed.

Lemma map_filter_keys (f : list string -> bool) (g : intent -> list string)
  (tbl : list (intent * list string)) :
  (forall e, In e tbl -> g (fst e) = snd e) ->
  map fst (List.filter (fun e => f (snd e)) tbl)
  = List.filter (fun i => f (g i)) (map fst tbl).
Proof.
  induction tbl as [|e tbl IH]; intro H; [reflexivity|].
  cbn [List.filter map]. rewrite (H e (or_introl eq_refl)).
  destruct (f (snd e)); cbn [map]; rewrite IH; auto; intros; apply H; right; auto.
Qed.

Lemma patterns_of_entry :
  forall e, In e INTENT_PATTERNS -> patterns_of (fst e) = snd e.
Proof.
  intros e H. unfold INTENT_PATTERNS in H. cbn [In] in H.
  repeat (destruct H as [H|H]; [subst e; reflexivity|]). contradiction.
Qed.

Lemma declaration_order_eq :
  declaration_order
  = [task_management; budget_management; schedule_management;
     information_query; conversation].
Proof. reflexivity. Qed.

Lemma declaration_order_NoDup : NoDup declaration_order.
Proof.
  rewrite declaration_order_eq.
  repeat constructor; cbn [In]; intuition discriminate.
Qed.

Lemma declaration_order_all (i : intent) : In i declaration_order.
Proof. rewrite declaration_order_eq. destruct i; cbn [In]; auto 6. Qed.

(** What the classifier returns, in one line. *)
Lemma classify_intent_eq (text : string) :
  classify_intent text
  = match List.filter (fun i => category_matches i text) declaration_order with
    | [] => [conversation]
    | l => l
    end.
Proof.
  unfold classify_intent.
  rewrite fold_classify_step.
  - cbn [app].
    rewrite (map_filter_keys (fun ps => any_pattern ps (lower text)) patterns_of
                             INTENT_PATTERNS patterns_of_entry).
    fold declaration_order. unfold category_matches.
    destruct (List.filter _ declaration_order); reflexivity.
  - exact declaration_order_NoDup.
  - intros i [].
Qed.

Lemma Subseq_filter {A : Type} (f : A -> bool) (l : list A) :
  Subseq (List.filter f l) l.
Proof.
  induction l as [|x l IH]; cbn [List.filter].
  - constructor.
  - destruct (f x); constructor; exact IH.
Qed.

Lemma Subseq_conversation : Subseq [conversation] declaration_order.
Proof.
  rewrite declaration_order_eq.
  do 4 apply Subseq_skip. apply Subseq_take. apply Subseq_nil.
Qed.

Lemma filter_nil_iff (f : intent -> bool) :
  List.filter f declaration_order = [] <-> forall j, f j = false.
Proof.
  split.
  - intros E j. destruct (f j) eqn:Fj; [|reflexivity].
    assert (H : In j (List.filter f declaration_order)).
    { apply filter_In. split; [apply declaration_order_all | exact Fj]. }
    rewrite E in H. destruct H.
  - intro H. destruct (List.filter f declaration_order) as [|x l] eqn:E; [reflexivity|].
    assert (Hx : In x (List.filter f declaration_order)) by (rewrite E; left; reflexivity).
    apply filter_In in Hx. destruct Hx as [_ Hx]. rewrite H in Hx. discriminate Hx.
Qed.

(** The classifier's result, category by category, in terms of
    [category_matches]. *)
Lemma classify_intent_by_category :
  forall text : string,
    classify_intent text <> [] /\
    NoDup (classify_intent text) /\
    Subseq (classify_intent text) declaration_order /\
    (forall i : intent,
        In i (classify_intent text) <->
        category_matches i text = true \/
        (i = conversation /\ forall j, category_matches j text = false)) /\
    ((forall j, category_matches j text = false) ->
     classify_intent text = [conversation]).
Proof.
  intro text. rewrite classify_intent_eq.
  pose proof (filter_nil_iff (fun i => category_matches i text)) as Hnil.
  pose proof (NoDup_filter (fun i => category_matches i text) declaration_order_NoDup)
    as Hnd.
  pose proof (Subseq_filter (fun i => category_matches i text) declaration_order)
    as Hsub.
  pose proof (fun i => filter_In (fun i => category_matches i text) i declaration_order)
    as Hin.
  destruct (List.filter (fun i => category_matches i text) declaration_order)
    as [|x l] eqn:E.
  - assert (Hall : forall j, category_matches j text = false)
      by (apply Hnil; reflexivity).
    repeat split.
    + discriminate.
    + repeat constructor. intros [].
    + exact Subseq_conversation.
    + intros [Hi|[]]. right. split; [symmetry; exact Hi | exact Hall].
    + intros [Hi|[Hi _]].
      * rewrite Hall in Hi. discriminate Hi.
      * left. symmetry. exact Hi.
  - assert (Hx : category_matches x text = true)
      by (apply (Hin x); left; reflexivity).
    repeat split.
    + discriminate.
    + exact Hnd.
    + exact Hsub.
    + intro Hi. left. apply (Hin i). exact Hi.
    + intros [Hi|[_ Hall]].
      * apply (Hin i). split; [apply declaration_order_all | exact Hi].
      * rewrite Hall in Hx. discriminate Hx.
    + intro Hall. rewrite Hall in Hx. discriminate Hx.
Qed.

(** The inner loop finds a match exactly when one of the patterns matches. *)
Lemma any_pattern_iff (patterns : list string) (t : string) :
  any_pattern patterns t = true
  <-> exists p, In p patterns /\ matches (re_compile p) t = true.
Proof.
  unfold any_pattern. rewrite existsb_exists. reflexivity.
Qed.

Lemma category_matches_iff (i : intent) (text : string) :
  category_matches i text = true
  <-> exists p, In p (patterns_of i)
                /\ matches (re_compile p) (lower text) = true.
Proof. unfold category_matches. apply any_pattern_iff. Qed.

Lemma category_matches_none (text : string) :
  (forall j, category_matches j text = false)
  <-> (forall j p, In p (patterns_of j) ->
                   matches (re_compile p) (lower text) = false).
Proof.
  split.
  - intros H j p Hp.
    destruct (matches (re_compile p) (lower text)) eqn:E; [|reflexivity].
    assert (C : category_matches j text = true)
      by (apply category_matches_iff; exists p; split; assumption).
    rewrite H in C. discriminate C.
  - intros H j. destruct (category_matches j text) eqn:C; [|reflexivity].
    apply category_matches_iff in C. destruct C as (p & Hp & E).
    rewrite (H j p Hp) in E. discriminate E.
Qed.

(** The patterns of each category are those the table declares for it. *)
Lemma patterns_of_table :
  map (fun i => (i, patterns_of i)) declaration_order = INTENT_PATTERNS.
Proof. reflexivity. Qed.

(** C7. For every text, [classify] returns a non-empty list without
    duplicates that is a subsequence of the declaration order; a category is
    in it exactly when one of the patterns the table declares for it matches
    the lower-cased text, or, for [conversation], when no pattern of any
    category matches; and when no pattern of any category matches the
    result is exactly [[conversation]]. *)
Theorem classify_intent_spec :
  forall text : string,
    classify_intent text <> [] /\
    NoDup (classify_intent text) /\
    Subseq (classify_intent text) declaration_order /\
    (forall i : intent,
        In i (classify_intent text) <->
        (exists p, In p (patterns_of i)
                   /\ matches (re_compile p) (lower text) = true) \/
        (i = conversation /\
         forall j p, In p (patterns_of j) ->
                     matches (re_compile p) (lower text) = false)) /\
    ((forall j p, In p (patterns_of j) ->
                  matches (re_compile p) (lower text) = false) ->
     classify_intent text = [conversation]).
Proof.
  intro text.
  destruct (classify_intent_by_category text) as (Hne & Hnd & Hsub & Hin & Hnone).
  split; [exact Hne|]. split; [exact Hnd|]. split; [exact Hsub|]. split.
  - intro i. rewrite (Hin i), (category_matches_iff i text),
               (category_matches_none text). reflexivity.
  - intro H. apply Hnone. apply category_matches_none. exact H.
Qed.

(** Witness for C7: no pattern of any category matches "xyz". *)
Lemma classify_intent_spec_witness :
  (forall j p, In p (patterns_of j) ->
               matches (re_compile p) (lower "xyz") = false)
  /\ classify_intent "xyz" = [conversation].
Proof.
  assert (H : forall j p, In p (patterns_of j) ->
                          matches (re_compile p) (lower "xyz") = false).
  { apply category_matches_none. intro j. destruct j; vm_compute; reflexivity. }
  split; [exact H|].
  exact (proj2 (proj2 (proj2 (proj2 (classify_intent_spec "xyz")))) H).
Defined.

(** *** Confidence *)

Lemma specific_without_conversation (l : list intent) :
  mem conversation l = false -> specific l = l.
Proof.
  unfold specific. induction l as [|i l IH]; intro H; [reflexivity|].
  cbn [List.filter]. unfold mem in H. cbn [existsb] in H.
  apply orb_false_iff in H. destruct H as [Hi Hl].
  assert (E : intent_eqb i conversation = false)
    by (destruct i; try reflexivity; discriminate Hi).
  rewrite E. cbn [negb]. rewrite (IH Hl). reflexivity.
Qed.

(** The confidence of a non-empty intent list. *)
Lemma calculate_confidence_eq (l : list intent) (text : string) :
  l <> [] ->
  _calculate_confidence l text
  = if mem conversation l then 0.6%float
    else if 2 <=? List.length l then 0.9%float else 0.8%float.
Proof.
  intro Hne. destruct l as [|i l]; [contradiction|].
  unfold _calculate_confidence. cbn [is_nil orb].
  destruct (mem conversation (i :: l)) eqn:M; [reflexivity|].
  fold (specific (i :: l)). rewrite (specific_without_conversation _ M).
  destruct l as [|j l]; reflexivity.
Qed.

Lemma classify_intent_nonempty (text : string) : classify_intent text <> [].
Proof.
  rewrite classify_intent_eq.
  destruct (List.filter _ declaration_order); discriminate.
Qed.





(** *** Priority *)

Lemma weaker_alt_more (r h : regex) : weaker r (RAlt r h).
Proof.
  intros ic c g k H. cbn [m]. destruct (m ic r c g k); [discriminate|].
  contradiction H. reflexivity.
Qed.

Lemma weaker_alt_tail (x r r' : regex) :
  weaker r r' -> weaker (RAlt x r) (RAlt x r').
Proof.
  intros W ic c g k. cbn [m]. destruct (m ic x c g k); [discriminate|]. apply W.
Qed.

Lemma weaker_group (n : nat) (r r' : regex) :
  weaker r r' -> weaker (RGroup n r) (RGroup n r').
Proof. intros W ic c g k. cbn [m]. apply W. Qed.

Lemma weaker_cat_head (r r' s : regex) :
  weaker r r' -> weaker (RCat r s) (RCat r' s).
Proof. intros W ic c g k. cbn [m]. apply W. Qed.

Lemma weaker_after_boundary (r r' : regex) :
  weaker r r' -> weaker (RCat RWordB r) (RCat RWordB r').
Proof.
  intros W ic c g k. cbn [m]. destruct (at_boundary c); [apply W | auto].
Qed.

Lemma search_from_weaker (r r' : regex) :
  weaker r r' ->
  forall (l : list ascii) (prev : option ascii),
    search_from false r prev l <> None -> search_from false r' prev l <> None.
Proof.
  intros W. induction l as [|x l IH]; intros prev; cbn [search_from];
    destruct (match_at false r' (prev, _)) as [[c' g']|] eqn:E2;
    try discriminate;
    destruct (match_at false r (prev, _)) as [[c1 g1]|] eqn:E1;
    try (exfalso; unfold match_at in E1, E2;
         apply (W false _ _ _ ltac:(rewrite E1; discriminate)); exact E2).
  - auto.
  - apply IH.
Qed.

Lemma matches_weaker (p p' : pattern) (s : string) :
  weaker (tree p) (tree p') -> matches p s = true -> matches p' s = true.
Proof.
  intros W. unfold matches, search, search_flags.
  pose proof (search_from_weaker W (chars s) None) as H.
  destruct (search_from false (tree p) None (chars s)); [|discriminate].
  destruct (search_from false (tree p') None (chars s)); [reflexivity|].
  intros _. exfalso. apply H; [discriminate | reflexivity].
Qed.

(** The first priority pattern adds one alternative to the urgent words. *)
Lemma urgent_words_weaker : weaker (tree urgent_words) (tree (priority_pattern 0)).
Proof.
  let a := eval vm_compute in (tree urgent_words) in
  let b := eval vm_compute in (tree (priority_pattern 0)) in
  change (weaker a b).
  apply weaker_after_boundary, weaker_cat_head, weaker_group.
  do 3 apply weaker_alt_tail. apply weaker_alt_more.
Qed.

(** C8. For every text in which an urgent-class word matches, the priority
    is 4, whatever else the text holds; for every text matching none of
    the three priority patterns it is 2; and the three examples of the
    specification evaluate to 4, 2 and 4. *)
Theorem extract_priority_precedence :
  forall text : string,
    (matches urgent_words (lower text) = true -> extract_priority text = 4%Z) /\
    (matches (priority_pattern 0) (lower text) = true -> extract_priority text = 4%Z) /\
    (matches (priority_pattern 0) (lower text) = false ->
     matches (priority_pattern 1) (lower text) = false ->
     matches (priority_pattern 2) (lower text) = false ->
     extract_priority text = 2%Z) /\
    extract_priority "this is urgent, do it now" = 4%Z /\
    extract_priority "" = 2%Z /\
    extract_priority "low priority, urgent actually" = 4%Z.
Proof.
  intro text.
  assert (P0 : matches (priority_pattern 0) (lower text) = true ->
               extract_priority text = 4%Z).
  { intro H. unfold extract_priority. rewrite H. reflexivity. }
  repeat split.
  - intro H. apply P0. exact (@matches_weaker _ _ (lower text) urgent_words_weaker H).
  - exact P0.
  - intros H0 H1 H2. unfold extract_priority. rewrite H0, H1, H2. reflexivity.
Qed.

(** Witness for C8: an urgent word after a low-priority phrase, and a text
    with no priority word. *)
Lemma extract_priority_precedence_witness :
  extract_priority "please do it eventually, it is CRITICAL" = 4%Z /\
  extract_priority "buy milk" = 2%Z.
Proof.
  split.
  - apply (proj1 (extract_priority_precedence
                    "please do it eventually, it is CRITICAL")).
    vm_compute. reflexivity.
  - apply (proj1 (proj2 (proj2 (extract_priority_precedence "buy milk"))));
      vm_compute; reflexivity.
Defined.

(** *** Suggestions *)

Import Suggestions.



(** *** A few evaluations *)

Example extract_dates_today_tomorrow :
  extract_dates a_wednesday "Today or tomorrow"
  = Ok [PStr "2024-05-01"; PStr "2024-05-02"].
Proof. vm_compute. reflexivity. Qed.

Example extract_times_group_text :
  extract_times "call at 10:30 am, or in the evening" = [":30"; "evening"; ":30"].
Proof. vm_compute. reflexivity. Qed.

Example combine_date_time_pm :
  _combine_date_time a_wednesday [] ["3 PM"] = Some "2024-05-01 15:00".
Proof. vm_compute. reflexivity. Qed.

Example combine_date_time_unparsed :
  _combine_date_time a_wednesday [PStr "2024-05-01"] ["3pm"]
  = Some "2024-05-01 09:00".
Proof. vm_compute. reflexivity. Qed.

Example process_create_task :
  process_complex_input a_wednesday "Add task buy milk tomorrow urgent" None
  = Ok (Interpretation
          [task_management; schedule_management]
          (Entities [PStr "2024-05-02"] [] [] 4%Z)
          [create_task "buy milk" 4%Z (Some (PStr "2024-05-02")) "Personal"]
          0.9%float).
Proof. vm_compute. reflexivity. Qed.

(* ------------------------------------------------------------------ *)
(** ** Further properties of the code *)

(** *** The matcher finds only matches of the pattern *)

Import ReSem.

Unset Implicit Arguments.

Lemma m_rep (ic : bool) (r : regex) (lo : nat) (hi : option nat)
  (c : cursor) (g : caps) (k : kont) :
  m ic (RRep r lo hi) c g k
  = rep_loop (m ic r) lo hi k (lo + List.length (snd c) + 2) 0 None c g.
Proof. reflexivity. Qed.

Lemma rep_loop_sound (R : step)
  (body : cursor -> caps -> kont -> option (cursor * caps))
  (lo : nat) (hi : option nat) (k : kont) :
  (forall c g k' res, body c g k' = Some res ->
                      exists c' g', R c g c' g' /\ k' c' g' = Some res) ->
  forall fuel count last c g res,
    rep_loop body lo hi k fuel count last c g = Some res ->
    exists n c' g',
      iter R n c g c' g' /\ k c' g' = Some res /\ (lo <= count + n)
      /\ (match hi with
          | Some h => count <= Nat.max lo h -> count + n <= Nat.max lo h
          | None => True
          end).
Proof.
  intros Hbody. induction fuel as [|fuel IH]; intros count last c g res H.
  - discriminate H.
  - cbn [rep_loop] in H.
    assert (More : forall res',
               body c g (fun c' g' =>
                  rep_loop body lo hi k fuel (S count)
                           (Some (List.length (snd c))) c' g') = Some res' ->
               ((count <? lo) = true \/
                (match hi with Some h => (count <? h) = true | None => True end)) ->
               exists n c' g',
                 iter R n c g c' g' /\ k c' g' = Some res' /\ (lo <= count + n)
                 /\ (match hi with
                     | Some h => count <= Nat.max lo h -> count + n <= Nat.max lo h
                     | None => True
                     end)).
    { intros res' A Hc.
      apply Hbody in A. destruct A as (c1 & g1 & HR & Hloop).
      apply IH in Hloop. destruct Hloop as (n & c' & g' & Hit & Hk & Hlo & Hhi).
      exists (S n), c', g'. split; [exists c1, g1; split; assumption|].
      split; [exact Hk|]. split; [lia|].
      destruct hi as [h|]; [|exact I]. intros _.
      assert (S count <= Nat.max lo h).
      { destruct Hc as [Hc|Hc]; apply Nat.ltb_lt in Hc; lia. }
      lia. }
    assert (Stop : forall res', k c g = Some res' -> (count <? lo) = false ->
               exists n c' g',
                 iter R n c g c' g' /\ k c' g' = Some res' /\ (lo <= count + n)
                 /\ (match hi with
                     | Some h => count <= Nat.max lo h -> count + n <= Nat.max lo h
                     | None => True
                     end)).
    { intros res' Hk Hlo. apply Nat.ltb_ge in Hlo.
      exists 0, c, g. split; [split; reflexivity|]. split; [exact Hk|].
      split; [lia|]. destruct hi; [intro; lia | exact I]. }
    destruct (count <? lo) eqn:Hlo.
    + apply More; [exact H | left; reflexivity].
    + destruct ((match hi with Some h => count <? h | None => true end)
                && (match last with
                    | Some p => negb (p =? List.length (snd c))
                    | None => true
                    end)) eqn:B.
      * destruct (body c g _) as [res'|] eqn:A.
        -- injection H as <-. apply More; [reflexivity|]. right.
           apply andb_prop in B. destruct B as [B _].
           destruct hi; [exact B | exact I].
        -- apply Stop; [exact H | reflexivity].
      * apply Stop; [exact H | reflexivity].
Qed.

(** Whatever the matcher returns went through a match of [r]. *)
Lemma m_sound (ic : bool) (r : regex) :
  forall c g k res,
    m ic r c g k = Some res ->
    exists c' g', sem ic r c g c' g' /\ k c' g' = Some res.
Proof.
  induction r as [|cs| |r1 IH1 r2 IH2|r1 IH1 r2 IH2|n r1 IH1|r1 IH1 lo hi|];
    intros c g k res H.
  - exists c, g. split; [split; reflexivity | exact H].
  - cbn [m] in H. destruct (snd c) as [|x tl] eqn:E; [discriminate H|].
    destruct (cset_mem ic cs x) eqn:M; [|discriminate H].
    exists (Some x, tl), g. split; [|exact H].
    cbn [sem]. exists x, tl. repeat split; assumption.
  - cbn [m] in H. destruct (at_boundary c) eqn:B; [|discriminate H].
    exists c, g. split; [|exact H]. cbn [sem]. repeat split. exact B.
  - cbn [m] in H. apply IH1 in H. destruct H as (c1 & g1 & S1 & H).
    apply IH2 in H. destruct H as (c2 & g2 & S2 & H).
    exists c2, g2. split; [|exact H]. cbn [sem]. exists c1, g1. split; assumption.
  - cbn [m] in H. destruct (m ic r1 c g k) as [res1|] eqn:E.
    + injection H as <-. apply IH1 in E. destruct E as (c1 & g1 & S1 & E).
      exists c1, g1. split; [left; exact S1 | exact E].
    + apply IH2 in H. destruct H as (c1 & g1 & S1 & H).
      exists c1, g1. split; [right; exact S1 | exact H].
  - cbn [m] in H. apply IH1 in H. destruct H as (c1 & g1 & S1 & H).
    exists c1, ((n, consumed c c1) :: g1). split; [|exact H].
    cbn [sem]. exists g1. split; [exact S1 | reflexivity].
  - rewrite m_rep in H.
    apply (@rep_loop_sound (sem ic r1) (m ic r1) lo hi k IH1) in H.
    destruct H as (n & c' & g' & Hit & Hk & Hlo & Hhi).
    exists c', g'. split; [|exact Hk]. cbn [sem]. exists n. split; [|exact Hit].
    split; [lia|]. destruct hi as [h|]; [|exact I].
    cbn [Nat.add] in Hhi. apply Hhi. lia.
  - discriminate H.
Qed.

Lemma firstn_length_app {A : Type} (w l : list A) :
  firstn (List.length w) (w ++ l) = w.
Proof.
  induction w as [|x w IH]; [reflexivity|].
  cbn [List.length firstn app]. rewrite IH. reflexivity.
Qed.

Lemma consumed_app (c c' : cursor) (w : list ascii) :
  snd c = w ++ snd c' -> consumed c c' = w.
Proof.
  intro H. unfold consumed. rewrite H, length_app.
  replace (List.length w + List.length (snd c') - List.length (snd c'))
    with (List.length w) by lia.
  apply firstn_length_app.
Qed.

Lemma justified_groups (ic : bool) (r r' : regex) (l : list ascii)
  (e : nat * list ascii) :
  (forall x, In x (groups_of r) -> In x (groups_of r')) ->
  justified ic r l e -> justified ic r' l e.
Proof.
  intros Hsub (b & c1 & g1 & c2 & g2 & pre & Hin & Hs & Hl & Hw).
  exists b, c1, g1, c2, g2, pre. repeat split; auto.
Qed.

Lemma justified_shift (ic : bool) (r : regex) (w l : list ascii)
  (e : nat * list ascii) :
  justified ic r l e -> justified ic r (w ++ l) e.
Proof.
  intros (b & c1 & g1 & c2 & g2 & pre & Hin & Hs & Hl & Hw).
  exists b, c1, g1, c2, g2, (w ++ pre). repeat split; auto.
  rewrite Hl, app_assoc. reflexivity.
Qed.

(** What a match leaves behind: it consumes a prefix of what follows, and
    every group it adds is justified. *)
Definition trace (ic : bool) (r : regex) (c : cursor) (g : caps)
  (c' : cursor) (g' : caps) : Prop :=
  exists new w,
    g' = new ++ g /\ snd c = w ++ snd c'
    /\ Forall (justified ic r (snd c)) new
    /\ (ic = false -> forallb (may_consume r) w = true).

Lemma iter_trace (ic : bool) (r r' : regex) :
  (forall x, In x (groups_of r) -> In x (groups_of r')) ->
  (forall x, may_consume r x = true -> may_consume r' x = true) ->
  (forall c g c' g', sem ic r c g c' g' -> trace ic r c g c' g') ->
  forall n c g c' g', iter (sem ic r) n c g c' g' -> trace ic r' c g c' g'.
Proof.
  intros Hg Hm Hr. induction n as [|n IH]; intros c g c' g' H.
  - destruct H as [-> ->]. exists [], []. repeat split; auto.
  - destruct H as (c1 & g1 & H1 & H2).
    apply Hr in H1. destruct H1 as (new1 & w1 & E1 & L1 & F1 & A1).
    apply IH in H2. destruct H2 as (new2 & w2 & E2 & L2 & F2 & A2).
    exists (new2 ++ new1), (w1 ++ w2). split; [|split; [|split]].
    + rewrite E2, E1, app_assoc. reflexivity.
    + rewrite L1, L2, app_assoc. reflexivity.
    + apply Forall_app. split.
      * rewrite L1. eapply Forall_impl; [|exact F2].
        intros e He. apply justified_shift. exact He.
      * eapply Forall_impl; [|exact F1].
        intros e He. eapply justified_groups; [exact Hg | exact He].
    + intro Hic. rewrite forallb_app, (A2 Hic), andb_true_r.
      specialize (A1 Hic). rewrite forallb_forall in *.
      intros x Hx. apply Hm, A1, Hx.
Qed.

Lemma sem_trace (ic : bool) (r : regex) :
  forall c g c' g', sem ic r c g c' g' -> trace ic r c g c' g'.
Proof.
  induction r as [|cs| |r1 IH1 r2 IH2|r1 IH1 r2 IH2|n r1 IH1|r1 IH1 lo hi|];
    intros c g c' g' H; cbn [sem] in H.
  - destruct H as [-> ->]. exists [], []. repeat split; auto.
  - destruct H as (x & tl & E & M & -> & ->).
    exists [], [x]. repeat split; auto.
    intros ->. cbn [forallb may_consume]. rewrite M. reflexivity.
  - destruct H as (_ & -> & ->). exists [], []. repeat split; auto.
  - destruct H as (c1 & g1 & H1 & H2).
    apply IH1 in H1. destruct H1 as (new1 & w1 & E1 & L1 & F1 & A1).
    apply IH2 in H2. destruct H2 as (new2 & w2 & E2 & L2 & F2 & A2).
    exists (new2 ++ new1), (w1 ++ w2). split; [|split; [|split]].
    + rewrite E2, E1, app_assoc. reflexivity.
    + rewrite L1, L2, app_assoc. reflexivity.
    + apply Forall_app. split.
      * rewrite L1. eapply Forall_impl; [|exact F2].
        intros e He. apply justified_shift.
        eapply justified_groups; [|exact He].
        intros x Hx. cbn [groups_of]. apply in_or_app. right. exact Hx.
      * eapply Forall_impl; [|exact F1].
        intros e He. eapply justified_groups; [|exact He].
        intros x Hx. cbn [groups_of]. apply in_or_app. left. exact Hx.
    + intro Hic. specialize (A1 Hic). specialize (A2 Hic).
      rewrite forallb_forall in *. intros x Hx. cbn [may_consume].
      apply in_app_or in Hx. destruct Hx as [Hx|Hx].
      * rewrite (A1 x Hx). reflexivity.
      * rewrite (A2 x Hx). apply orb_true_r.
  - destruct H as [H|H]; [apply IH1 in H | apply IH2 in H];
      destruct H as (new & w & E & L & F & A); exists new, w;
      (split; [exact E|]); (split; [exact L|]); split.
    + eapply Forall_impl; [|exact F]. intros e He.
      eapply justified_groups; [|exact He].
      intros x Hx. cbn [groups_of]. apply in_or_app. left. exact Hx.
    + intro Hic. specialize (A Hic). rewrite forallb_forall in *.
      intros x Hx. cbn [may_consume]. rewrite (A x Hx). reflexivity.
    + eapply Forall_impl; [|exact F]. intros e He.
      eapply justified_groups; [|exact He].
      intros x Hx. cbn [groups_of]. apply in_or_app. right. exact Hx.
    + intro Hic. specialize (A Hic). rewrite forallb_forall in *.
      intros x Hx. cbn [may_consume]. rewrite (A x Hx). apply orb_true_r.
  - destruct H as (g1 & H & ->). pose proof H as Hs.
    apply IH1 in H. destruct H as (new & w & E & L & F & A).
    exists ((n, consumed c c') :: new), w. split; [|split; [|split]].
    + rewrite E. reflexivity.
    + exact L.
    + constructor.
      * exists r1, c, g, c', g1, []. cbn [fst snd groups_of].
        repeat split; auto.
        -- left. reflexivity.
        -- rewrite (@consumed_app c c' w L). exact L.
      * eapply Forall_impl; [|exact F]. intros e He.
        eapply justified_groups; [|exact He].
        intros x Hx. cbn [groups_of]. right. exact Hx.
    + exact A.
  - destruct H as (n & _ & H).
    eapply (@iter_trace ic r1 (RRep r1 lo hi)); [| |exact IH1|exact H]; auto.
  - destruct H.
Qed.

Lemma in_all_ascii (x : ascii) : In x all_ascii.
Proof.
  unfold all_ascii. apply in_map_iff. exists (nat_of_ascii x). split.
  - apply ascii_nat_embedding.
  - apply in_seq. pose proof (nat_ascii_bounded x). lia.
Qed.

Lemma in_cat_words (A B : list (list ascii)) (a b : list ascii) :
  In a A -> In b B -> In (a ++ b) (cat_words A B).
Proof.
  intros Ha Hb. unfold cat_words. apply in_flat_map. exists a. split; [exact Ha|].
  apply in_map. exact Hb.
Qed.

Lemma iter_power (r : regex) (B : list (list ascii)) :
  (forall c g c' g', sem false r c g c' g' ->
                     exists w, snd c = w ++ snd c' /\ In w B) ->
  forall n c g c' g', iter (sem false r) n c g c' g' ->
                      exists w, snd c = w ++ snd c' /\ In w (power B n).
Proof.
  intros Hr. induction n as [|n IH]; intros c g c' g' H.
  - destruct H as [-> ->]. exists []. split; [reflexivity | left; reflexivity].
  - destruct H as (c1 & g1 & H1 & H2).
    apply Hr in H1. destruct H1 as (w1 & L1 & I1).
    apply IH in H2. destruct H2 as (w2 & L2 & I2).
    exists (w1 ++ w2). split.
    + rewrite L1, L2, app_assoc. reflexivity.
    + cbn [power]. apply in_cat_words; assumption.
Qed.

(** A match of a pattern that [enum] lists consumes one of the listed texts. *)
Lemma enum_sound (r : regex) :
  forall L, enum r = Some L ->
  forall c g c' g', sem false r c g c' g' ->
                    exists w, snd c = w ++ snd c' /\ In w L.
Proof.
  induction r as [|cs| |r1 IH1 r2 IH2|r1 IH1 r2 IH2|n r1 IH1|r1 IH1 lo hi|];
    intros L E c g c' g' H; cbn [enum] in E; cbn [sem] in H.
  - injection E as <-. destruct H as [-> _]. exists []. split; [reflexivity|left; reflexivity].
  - injection E as <-. destruct H as (x & tl & Ec & M & -> & _).
    exists [x]. split; [exact Ec|].
    apply (in_map (fun y : ascii => [y])). apply filter_In.
    split; [apply in_all_ascii | exact M].
  - injection E as <-. destruct H as (_ & -> & _).
    exists []. split; [reflexivity|left; reflexivity].
  - destruct (enum r1) as [A|]; [|discriminate E].
    destruct (enum r2) as [B|]; [|discriminate E]. injection E as <-.
    destruct H as (c1 & g1 & H1 & H2).
    destruct (IH1 A eq_refl _ _ _ _ H1) as (w1 & L1 & I1).
    destruct (IH2 B eq_refl _ _ _ _ H2) as (w2 & L2 & I2).
    exists (w1 ++ w2). split.
    + rewrite L1, L2, app_assoc. reflexivity.
    + apply in_cat_words; assumption.
  - destruct (enum r1) as [A|]; [|discriminate E].
    destruct (enum r2) as [B|]; [|discriminate E]. injection E as <-.
    destruct H as [H|H].
    + destruct (IH1 A eq_refl _ _ _ _ H) as (w & Lw & Iw).
      exists w. split; [exact Lw|]. apply in_or_app. left. exact Iw.
    + destruct (IH2 B eq_refl _ _ _ _ H) as (w & Lw & Iw).
      exists w. split; [exact Lw|]. apply in_or_app. right. exact Iw.
  - destruct H as (g1 & H & _). exact (IH1 L E _ _ _ _ H).
  - destruct hi as [h|]; [|discriminate E].
    destruct (enum r1) as [B|]; [|discriminate E]. injection E as <-.
    destruct H as (n & [Hlo Hhi] & H).
    destruct (@iter_power r1 B (IH1 B eq_refl) n _ _ _ _ H) as (w & Lw & Iw).
    exists w. split; [exact Lw|].
    change (In w (flat_map (power B) (seq lo (S (Nat.max lo h - lo))))).
    apply in_flat_map. exists n. split; [|exact Iw].
    apply in_seq. lia.
  - destruct H.
Qed.

Lemma lookup_In (n : nat) (g : caps) (w : list ascii) :
  lookup n g = Some w -> In (n, w) g.
Proof.
  induction g as [|[i s] g IH]; cbn [lookup]; intro H; [discriminate H|].
  destruct (i =? n) eqn:E.
  - apply Nat.eqb_eq in E. subst i. injection H as ->. left. reflexivity.
  - right. apply IH. exact H.
Qed.

Lemma group_words_incl (n : nat) (b : regex) (gs : list (nat * regex)) :
  forall L,
    fold_right
      (fun (e : nat * regex) acc =>
         if fst e =? n then
           match enum (snd e), acc with
           | Some B, Some A => Some (B ++ A)
           | _, _ => None
           end
         else acc)
      (Some []) gs = Some L ->
    In (n, b) gs -> exists B, enum b = Some B /\ incl B L.
Proof.
  induction gs as [|[i b'] gs IH]; intros L E Hin; [destruct Hin|].
  cbn [fold_right fst snd] in E.
  destruct (i =? n) eqn:En.
  - destruct (enum b') as [B'|] eqn:Eb; [|discriminate E].
    match type of E with
    | match ?acc with _ => _ end = _ => destruct acc as [A|] eqn:Ea; [|discriminate E]
    end.
    injection E as <-. destruct Hin as [Hin|Hin].
    + injection Hin as _ ->. exists B'. split; [exact Eb|]. apply incl_appl, incl_refl.
    + destruct (IH A eq_refl Hin) as (B & EB & IB).
      exists B. split; [exact EB|]. apply incl_appr. exact IB.
  - destruct Hin as [Hin|Hin].
    + injection Hin as -> _. rewrite Nat.eqb_refl in En. discriminate En.
    + apply IH; assumption.
Qed.

(** The text of a group of a match is one of the texts its body lists, and
    it lies in the subject. *)
Lemma capture_words (r : regex) (c c' : cursor) (g : caps) (n : nat)
  (L : list (list ascii)) (w : list ascii) :
  match_at false r c = Some (c', g) ->
  group_words r n = Some L ->
  lookup n g = Some w ->
  In w L /\ exists pre post, snd c = pre ++ w ++ post.
Proof.
  intros Hm HL Hw. unfold match_at in Hm.
  apply m_sound in Hm. destruct Hm as (c1 & g1 & Hs & E). injection E as -> ->.
  apply sem_trace in Hs. destruct Hs as (new & w0 & Eg & _ & F & _).
  rewrite app_nil_r in Eg. subst g.
  apply lookup_In in Hw. rewrite Forall_forall in F.
  destruct (F _ Hw) as (b & c1 & g1 & c2 & g2 & pre & Hin & Hs & Hl & Hc).
  cbn [fst snd] in Hin, Hc.
  destruct (@group_words_incl n b (groups_of r) L HL Hin) as (B & EB & IB).
  destruct (@enum_sound b B EB _ _ _ _ Hs) as (w' & Lw & Iw).
  assert (w' = w) by (rewrite Hc in Lw; apply app_inv_tail in Lw; auto).
  subst w'. split; [apply IB, Iw|].
  exists pre, (snd c2). rewrite Hl, Hc. reflexivity.
Qed.

(** The whole text of a match is made of characters the pattern accepts. *)
Lemma whole_may_consume (r : regex) (c c' : cursor) (g : caps) :
  match_at false r c = Some (c', g) ->
  snd c = consumed c c' ++ snd c'
  /\ forallb (may_consume r) (consumed c c') = true.
Proof.
  intros Hm. unfold match_at in Hm.
  apply m_sound in Hm. destruct Hm as (c1 & g1 & Hs & E). injection E as -> ->.
  apply sem_trace in Hs. destruct Hs as (new & w & _ & Lw & _ & A).
  rewrite (@consumed_app c c' w Lw). split; [exact Lw | apply A; reflexivity].
Qed.

(** A group of a match that took part lies in the subject. *)
Lemma capture_in_subject (ic : bool) (r : regex) (c c' : cursor) (g : caps)
  (n : nat) (w : list ascii) :
  match_at ic r c = Some (c', g) ->
  lookup n g = Some w ->
  exists b c1 g1 c2 g2 pre,
    In (n, b) (groups_of r) /\ sem ic b c1 g1 c2 g2
    /\ snd c = pre ++ snd c1 /\ snd c1 = w ++ snd c2.
Proof.
  intros Hm Hw. unfold match_at in Hm.
  apply m_sound in Hm. destruct Hm as (c1 & g1 & Hs & E). injection E as -> ->.
  apply sem_trace in Hs. destruct Hs as (new & w0 & Eg & _ & F & _).
  rewrite app_nil_r in Eg. subst g.
  apply lookup_In in Hw. rewrite Forall_forall in F.
  exact (F _ Hw).
Qed.

(** Every match [scan] lists is a match of the pattern at a position of the
    subject. *)
Lemma scan_spec (ic : bool) (r : regex) :
  forall (l : list ascii) (prev : option ascii) (skip : nat) (f : found),
    In f (scan ic r prev l skip) ->
    exists pre,
      l = pre ++ snd (start f)
      /\ match_at ic r (start f) = Some (stop f, captured f).
Proof.
  induction l as [|x l IH]; intros prev skip f H.
  - destruct skip; cbn [scan] in H; [|destruct H].
    destruct (match_at ic r (prev, [])) as [[c' g]|] eqn:E; [|destruct H].
    destruct H as [<-|[]]. exists []. split; [reflexivity | exact E].
  - destruct skip; cbn [scan] in H.
    + destruct (match_at ic r (prev, x :: l)) as [[c' g]|] eqn:E.
      * destruct H as [<-|H].
        -- exists []. split; [reflexivity | exact E].
        -- apply IH in H. destruct H as (pre & Hl & Hm).
           exists (x :: pre). split; [rewrite Hl at 1; reflexivity | exact Hm].
      * apply IH in H. destruct H as (pre & Hl & Hm).
        exists (x :: pre). split; [rewrite Hl at 1; reflexivity | exact Hm].
    + apply IH in H. destruct H as (pre & Hl & Hm).
      exists (x :: pre). split; [rewrite Hl at 1; reflexivity | exact Hm].
Qed.

(** *** What the groups of a match can hold *)

Import Facts.

Lemma chars_text (l : list ascii) : chars (text l) = l.
Proof. apply list_ascii_of_string_of_list_ascii. Qed.

Lemma text_chars (s : string) : text (chars s) = s.
Proof. apply string_of_list_ascii_of_string. Qed.

Lemma findall_In_0 (p : pattern) (s : string) (v : pyval) :
  groups p = 0 -> In v (findall p s) ->
  exists f, In f (finditer false p s) /\ v = PStr (group_text f 0).
Proof.
  intros Hg H. unfold findall in H. rewrite Hg in H.
  apply in_map_iff in H. destruct H as (f & <- & Hf). exists f. split; auto.
Qed.

Lemma findall_In_1 (p : pattern) (s : string) (v : pyval) :
  groups p = 1 -> In v (findall p s) ->
  exists f, In f (finditer false p s) /\ v = PStr (group_text f 1).
Proof.
  intros Hg H. unfold findall in H. rewrite Hg in H.
  apply in_map_iff in H. destruct H as (f & <- & Hf). exists f. split; auto.
Qed.

Lemma findall_In_2 (p : pattern) (s : string) (v : pyval) :
  groups p = 2 -> In v (findall p s) ->
  exists f, In f (finditer false p s)
            /\ v = PTuple (group_text f 1) [group_text f 2].
Proof.
  intros Hg H. unfold findall in H. rewrite Hg in H.
  apply in_map_iff in H. destruct H as (f & <- & Hf). exists f. split; auto.
Qed.

(** The text of a group of a match found in [s] is empty (the group took no
    part) or one of the texts its body lists, found in [s]. *)
Lemma group_text_cases (p : pattern) (s : string) (f : found) (n : nat)
  (L : list (list ascii)) :
  In f (finditer false p s) ->
  group_words (tree p) (S n) = Some L ->
  group_text f (S n) = ""
  \/ exists w pre post,
       In w L /\ group_text f (S n) = text w /\ chars s = pre ++ w ++ post.
Proof.
  intros Hf HL. unfold finditer in Hf. apply scan_spec in Hf.
  destruct Hf as (pre & Hl & Hm).
  unfold group_text, group. cbn [option_map].
  destruct (lookup (S n) (captured f)) as [w|] eqn:E; [|left; reflexivity].
  right. destruct (capture_words _ _ _ _ _ _ _ Hm HL E) as (Hin & pre' & post & Hs).
  exists w, (pre ++ pre'), post. repeat split; auto.
  rewrite Hl, Hs, app_assoc. reflexivity.
Qed.

Lemma group_all_spec (p : pattern) (n : nat) (P : string -> bool)
  (s : string) (f : found) :
  group_all p (S n) P = true -> P "" = true ->
  In f (finditer false p s) -> P (group_text f (S n)) = true.
Proof.
  unfold group_all. intros HA H0 Hf.
  destruct (group_words (tree p) (S n)) as [L|] eqn:E; [|discriminate HA].
  destruct (group_text_cases _ _ _ _ _ Hf E) as [->|(w & _ & _ & Hin & -> & _)];
    [exact H0|].
  rewrite forallb_forall in HA. exact (HA w Hin).
Qed.

(** The whole text of a match is made of characters the pattern accepts. *)
Lemma whole_text_chars (p : pattern) (s : string) (f : found) :
  In f (finditer false p s) ->
  forallb (may_consume (tree p)) (chars (group_text f 0)) = true.
Proof.
  intros Hf. unfold finditer in Hf. apply scan_spec in Hf.
  destruct Hf as (pre & _ & Hm).
  unfold group_text, group, whole. rewrite chars_text.
  exact (proj2 (whole_may_consume _ _ _ _ Hm)).
Qed.

(** *** Amount extraction never yields an amount *)

Lemma no_amountb_spec (r : result (list float)) :
  no_amountb r = true -> no_amount r.
Proof.
  destruct r as [[|x l]|[msg|msg|msg]]; cbn [no_amountb]; intro H;
    try discriminate H.
  - left. reflexivity.
  - right. apply String.eqb_eq in H. subst msg. reflexivity.
Qed.

(** In a text without a dot, the group of the inner pattern takes no part. *)
Lemma numeric_group_empty (s : string) (f : found) :
  (forall x, In x (chars s) -> x <> "."%char) ->
  In f (finditer false numeric_pattern s) ->
  group_text f 1 = "".
Proof.
  intros Hdot Hf.
  assert (HL : group_all numeric_pattern 1 starts_with_dot = true)
    by (vm_compute; reflexivity).
  unfold group_all in HL.
  destruct (group_words (tree numeric_pattern) 1) as [L|] eqn:E; [|discriminate HL].
  destruct (group_text_cases _ _ _ _ _ Hf E)
    as [H|(w & pre & post & Hin & Hw & Hs)]; [exact H|].
  exfalso. rewrite forallb_forall in HL. specialize (HL w Hin).
  destruct w as [|x w]; [discriminate HL|].
  cbn in HL. apply Ascii.eqb_eq in HL. subst x.
  apply (Hdot "."%char); [|reflexivity].
  rewrite Hs. apply in_or_app. right. left. reflexivity.
Qed.

(** On a text without a dot, one turn of the inner loop adds nothing or
    raises. *)
Lemma amount_of_no_dot (s : string) :
  (forall x, In x (chars s) -> x <> "."%char) ->
  no_amount (amount_of [] (PStr s)).
Proof.
  intro Hdot. unfold amount_of. fold numeric_pattern.
  destruct (findall numeric_pattern s) as [|v rest] eqn:E; [left; reflexivity|].
  assert (Hv : In v (findall numeric_pattern s)) by (rewrite E; left; reflexivity).
  apply findall_In_1 in Hv; [|reflexivity].
  destruct Hv as (f & Hf & ->).
  rewrite (numeric_group_empty s f Hdot Hf).
  right. reflexivity.
Qed.

Lemma amount_of_group (p : pattern) (s : string) (v : pyval) :
  groups p = 1 ->
  group_all p 1 (fun t => no_amountb (amount_of [] (PStr t))) = true ->
  In v (findall p s) -> no_amount (amount_of [] v).
Proof.
  intros Hg HA Hv. apply findall_In_1 in Hv; [|exact Hg].
  destruct Hv as (f & Hf & ->). apply no_amountb_spec.
  apply (group_all_spec p 0 (fun t => no_amountb (amount_of [] (PStr t))) s f HA);
    [vm_compute; reflexivity | exact Hf].
Qed.

Lemma amount_of_whole (p : pattern) (s : string) (v : pyval) :
  groups p = 0 ->
  may_consume (tree p) "." = false ->
  In v (findall p s) -> no_amount (amount_of [] v).
Proof.
  intros Hg Hdot Hv. apply findall_In_0 in Hv; [|exact Hg].
  destruct Hv as (f & Hf & ->). apply amount_of_no_dot.
  intros x Hx ->.
  pose proof (whole_text_chars p s f Hf) as Hc.
  rewrite forallb_forall in Hc. rewrite (Hc _ Hx) in Hdot. discriminate Hdot.
Qed.

Lemma amounts_of_no_amount (items : list pyval) :
  (forall v, In v items -> no_amount (amount_of [] v)) ->
  no_amount (amounts_of [] items).
Proof.
  induction items as [|v items IH]; intro H; [left; reflexivity|].
  cbn [amounts_of]. destruct (H v (or_introl eq_refl)) as [E|E]; rewrite E.
  - cbn [bind]. apply IH. intros u Hu. apply H. right. exact Hu.
  - right. reflexivity.
Qed.

Lemma amount_pattern_items (i : nat) (text : string) (v : pyval) :
  i < 3 -> In v (findall (amount_pattern i) text) -> no_amount (amount_of [] v).
Proof.
  intros Hi Hv.
  destruct i as [|[|[|i]]]; [| | |lia].
  - apply (amount_of_group (amount_pattern 0) text v); auto; vm_compute; reflexivity.
  - apply (amount_of_whole (amount_pattern 1) text v); auto; vm_compute; reflexivity.
  - apply (amount_of_group (amount_pattern 2) text v); auto; vm_compute; reflexivity.
Qed.

(** Amount extraction, pattern after pattern, adds nothing or raises. *)
Lemma extract_amounts_no_amount (text : string) : no_amount (extract_amounts text).
Proof.
  unfold extract_amounts, amount_patterns. cbn [amounts_over].
  change (re_compile "\$\d+(\.\d{2})?") with (amount_pattern 0).
  change (re_compile "\b\d+\s*dollars?\b") with (amount_pattern 1).
  change (re_compile "\b\d+(\.\d{2})?\s*bucks?\b") with (amount_pattern 2).
  destruct (amounts_of_no_amount (findall (amount_pattern 0) text)
              (fun v => amount_pattern_items 0 text v ltac:(lia))) as [E|E];
    rewrite E; [cbn [bind]|right; reflexivity].
  destruct (amounts_of_no_amount (findall (amount_pattern 1) text)
              (fun v => amount_pattern_items 1 text v ltac:(lia))) as [E1|E1];
    rewrite E1; [cbn [bind]|right; reflexivity].
  destruct (amounts_of_no_amount (findall (amount_pattern 2) text)
              (fun v => amount_pattern_items 2 text v ltac:(lia))) as [E2|E2];
    rewrite E2; [left|right]; reflexivity.
Qed.

(** X1. For every text, [extract_amounts] returns the empty list or raises
    the [ValueError] of [float('')]: it never returns an amount. *)
Theorem extract_amounts_never_an_amount :
  forall text : string,
    extract_amounts text = Ok []
    \/ extract_amounts text
       = Raise (ValueError "could not convert string to float: ''").
Proof.
  intro text.
  destruct (extract_amounts_no_amount text) as [E|E]; [left | right]; exact E.
Qed.

(** *** Times *)

Lemma in_fold_app {A B : Type} (F : B -> list A) (l : list B) (x : A) :
  forall acc,
    In x (fold_left (fun a b => a ++ F b) l acc) ->
    In x acc \/ exists b, In b l /\ In x (F b).
Proof.
  induction l as [|b l IH]; intros acc H; cbn [fold_left] in H; [left; exact H|].
  apply IH in H. destruct H as [H|(b' & Hb & Hx)].
  - apply in_app_or in H. destruct H as [H|H]; [left; exact H|].
    right. exists b. split; [left; reflexivity | exact H].
  - right. exists b'. split; [right; exact Hb | exact Hx].
Qed.

(** An extracted time is the text of group 1 of a match of a time pattern. *)
Lemma extract_times_In (text t : string) :
  In t (extract_times text) ->
  exists i f,
    i < 3 /\ In f (finditer false (time_pattern i) (lower text))
    /\ t = group_text f 1.
Proof.
  intro H. unfold extract_times in H.
  apply (in_fold_app
           (fun pattern => map first_or_self (findall (re_compile pattern) (lower text))))
    in H.
  destruct H as [[]|(p & Hp & H)].
  apply in_map_iff in H. destruct H as (v & <- & Hv).
  unfold time_patterns in Hp. cbn [In] in Hp.
  destruct Hp as [<-|[<-|[<-|[]]]].
  - apply (findall_In_2 (time_pattern 0)) in Hv; [|reflexivity].
    destruct Hv as (f & Hf & ->). exists 0, f. repeat split; auto.
  - apply (findall_In_1 (time_pattern 1)) in Hv; [|reflexivity].
    destruct Hv as (f & Hf & ->). exists 1, f. repeat split; auto.
  - apply (findall_In_1 (time_pattern 2)) in Hv; [|reflexivity].
    destruct Hv as (f & Hf & ->). exists 2, f. repeat split; auto.
Qed.

Lemma extract_times_all (P : string -> bool) :
  P "" = true ->
  forallb (fun i => group_all (time_pattern i) 1 P) [0; 1; 2] = true ->
  forall text t, In t (extract_times text) -> P t = true.
Proof.
  intros H0 HA text t Ht.
  destruct (extract_times_In text t Ht) as (i & f & Hi & Hf & ->).
  rewrite forallb_forall in HA.
  apply (group_all_spec (time_pattern i) 0 P (lower text) f); auto.
  apply HA. destruct i as [|[|[|i]]]; cbn [In]; auto. lia.
Qed.

(** X3. Every time [extract_times] returns is the text of the first group
    of its pattern: empty, a colon and two digits, or one of the words
    morning, afternoon, evening, night.  The hour and am/pm are never in
    it. *)
Theorem extract_times_shape :
  forall text t : string, In t (extract_times text) -> time_shape t = true.
Proof.
  apply extract_times_all; vm_compute; reflexivity.
Qed.

Lemma extract_times_shape_witness :
  In ":30" (extract_times "Call at 10:30 AM") /\ time_shape ":30" = true.
Proof.
  assert (H : In ":30" (extract_times "Call at 10:30 AM"))
    by (vm_compute; left; reflexivity).
  split; [exact H|].
  exact (extract_times_shape "Call at 10:30 AM" ":30" H).
Defined.

Lemma extract_times_plain :
  forall text t : string, In t (extract_times text) -> plain_time t = true.
Proof.
  apply extract_times_all; vm_compute; reflexivity.
Qed.

Lemma combine_plain (now : datetime) (dates : list pyval) (times : list string) :
  match times with t :: _ => plain_time t = true | [] => True end ->
  _combine_date_time now dates times = plain_combination now dates times.
Proof.
  intro H. unfold _combine_date_time, plain_combination.
  destruct times as [|t ts].
  - destruct dates as [|d ds]; reflexivity.
  - unfold plain_time in H.
    apply andb_prop in H. destruct H as [H H4].
    apply andb_prop in H. destruct H as [H H3].
    apply andb_prop in H. destruct H as [H1 H2].
    apply negb_true_iff in H1, H2, H3, H4.
    rewrite H1, H2. cbn [orb]. rewrite H3, H4. cbn [orb].
    destruct dates as [|d ds]; reflexivity.
Qed.

(** X4. On the times [extract_times] returns, [_combine_date_time] never
    takes the am/pm path: the result is the date, a space, the first time
    (or "09:00") and ":00", or [None] when there is neither date nor time. *)
Theorem combine_extracted_times :
  forall (now : datetime) (dates : list pyval) (text : string),
    _combine_date_time now dates (extract_times text)
    = plain_combination now dates (extract_times text).
Proof.
  intros now dates text. apply combine_plain.
  destruct (extract_times text) as [|t ts] eqn:E; [exact I|].
  apply (extract_times_plain text). rewrite E. left. reflexivity.
Qed.

(** *** Dates *)

Lemma contains_chars_In (p l : list ascii) (x : ascii) :
  contains_chars p l = true -> In x p -> In x l.
Proof.
  assert (S : forall p l, starts_with p l = true -> In x p -> In x l).
  { induction p0 as [|a p0 IH]; intros l0 H Hx; [destruct Hx|].
    destruct l0 as [|b l0]; [discriminate H|]. cbn [starts_with] in H.
    apply andb_prop in H. destruct H as [Hab H]. apply Ascii.eqb_eq in Hab. subst b.
    destruct Hx as [->|Hx]; [left; reflexivity | right; apply IH; assumption]. }
  induction l as [|b l IH]; intros H Hx; cbn [contains_chars] in H.
  - rewrite orb_false_r in H. exact (S p [] H Hx).
  - apply orb_prop in H. destruct H as [H|H]; [exact (S p (b :: l) H Hx)|].
    right. apply IH; assumption.
Qed.

Lemma dead_str (s : string) : no_phrase s = true -> dead (PStr s).
Proof.
  unfold no_phrase, dead. cbn [py_in]. intro H.
  apply andb_prop in H. destruct H as [H1 H2].
  apply negb_true_iff in H1, H2. split; assumption.
Qed.

Lemma dead_pair (a b : string) :
  not_phrase a = true -> not_phrase b = true -> dead (PTuple a [b]).
Proof.
  unfold not_phrase, dead. cbn [py_in existsb]. intros Ha Hb.
  apply andb_prop in Ha, Hb. destruct Ha as [A1 A2], Hb as [B1 B2].
  apply negb_true_iff in A1, A2, B1, B2.
  rewrite A1, A2, B1, B2. split; reflexivity.
Qed.

Lemma date_group_dead (i : nat) (s : string) (v : pyval) :
  groups (date_pattern i) = 1 ->
  group_all (date_pattern i) 1 no_phrase = true ->
  In v (findall (date_pattern i) s) -> dead v.
Proof.
  intros Hg HA Hv. apply findall_In_1 in Hv; [|exact Hg].
  destruct Hv as (f & Hf & ->). apply dead_str.
  apply (group_all_spec (date_pattern i) 0 no_phrase s f HA); [reflexivity|exact Hf].
Qed.

Lemma raw_dates_dead (text : string) (v : pyval) :
  In v (raw_dates text) -> dead v.
Proof.
  intro H. unfold raw_dates in H.
  apply (in_fold_app (fun pattern => findall (re_compile pattern) (lower text))) in H.
  destruct H as [[]|(p & Hp & Hv)].
  unfold date_patterns in Hp. cbn [In] in Hp.
  destruct Hp as [<-|[<-|[<-|[<-|[<-|[]]]]]].
  - apply (date_group_dead 0 (lower text) v); auto; vm_compute; reflexivity.
  - apply (findall_In_2 (date_pattern 1)) in Hv; [|reflexivity].
    destruct Hv as (f & Hf & ->). apply dead_pair.
    + apply (group_all_spec (date_pattern 1) 0 not_phrase (lower text) f);
        auto; vm_compute; reflexivity.
    + apply (group_all_spec (date_pattern 1) 1 not_phrase (lower text) f);
        auto; vm_compute; reflexivity.
  - apply (findall_In_0 (date_pattern 2)) in Hv; [|reflexivity].
    destruct Hv as (f & Hf & ->).
    pose proof (whole_text_chars (date_pattern 2) (lower text) f Hf) as Hc.
    rewrite forallb_forall in Hc.
    assert (N : forall q, In "n"%char (chars q) ->
                          contains q (group_text f 0) = false).
    { intros q Hq. destruct (contains q (group_text f 0)) eqn:C; [|reflexivity].
      pose proof (contains_chars_In _ _ "n"%char C Hq) as Hn.
      apply Hc in Hn. vm_compute in Hn. discriminate Hn. }
    split; cbn [py_in]; apply N; vm_compute; auto.
  - apply (date_group_dead 3 (lower text) v); auto; vm_compute; reflexivity.
  - apply (date_group_dead 4 (lower text) v); auto; vm_compute; reflexivity.
Qed.

Lemma normalize_dates_dead (today tomorrow : datetime) (l : list pyval) :
  add_days today 1 = Ok tomorrow ->
  (forall v, In v l -> dead v) ->
  _normalize_dates today l = Ok (map (today_or_tomorrow today tomorrow) l).
Proof.
  intros Ht. induction l as [|v l IH]; intro H; [reflexivity|].
  cbn [_normalize_dates map]. rewrite IH by (intros u Hu; apply H; right; exact Hu).
  destruct (H v (or_introl eq_refl)) as [D1 D2].
  unfold normalize_date, today_or_tomorrow. rewrite Ht, D1, D2.
  destruct (eq_str v "today"); [reflexivity|].
  destruct (eq_str v "tomorrow"); reflexivity.
Qed.

Lemma extract_dates_eq (now tomorrow : datetime) (text : string) :
  add_days now 1 = Ok tomorrow ->
  extract_dates now text
  = Ok (map (today_or_tomorrow now tomorrow) (raw_dates text)).
Proof.
  intro Ht. unfold extract_dates. fold (raw_dates text).
  apply normalize_dates_dead; [exact Ht | apply raw_dates_dead].
Qed.

(** X5. On a clock before the last day of the year 9999, [extract_dates]
    returns, and what it returns is the list [re.findall] gave with only
    the items "today" and "tomorrow" replaced by dates: the "next week"
    and "next month" branches never fire, and every other item is passed
    on as [findall] gave it. *)
Theorem extract_dates_only_today_tomorrow :
  forall (now tomorrow : datetime) (text : string),
    add_days now 1 = Ok tomorrow ->
    extract_dates now text
    = Ok (map (today_or_tomorrow now tomorrow) (raw_dates text))
    /\ forall v, In v (raw_dates text) ->
                 py_in "next week" v = false /\ py_in "next month" v = false.
Proof.
  intros now tomorrow text Ht. split.
  - apply extract_dates_eq. exact Ht.
  - intros v Hv. exact (raw_dates_dead text v Hv).
Qed.

Lemma extract_dates_only_today_tomorrow_witness :
  add_days a_wednesday 1 = Ok (Datetime 2024 5 2 10 0 0 0)
  /\ extract_dates a_wednesday "tomorrow or next month, in 3 weeks"
     = Ok [PStr "2024-05-02"; PTuple "next" ["month"]; PStr "weeks"].
Proof.
  assert (H : add_days a_wednesday 1 = Ok (Datetime 2024 5 2 10 0 0 0))
    by (vm_compute; reflexivity).
  split; [exact H|].
  exact (proj1 (extract_dates_only_today_tomorrow a_wednesday _
                  "tomorrow or next month, in 3 weeks" H)).
Defined.

(** *** The processor *)

Lemma fold_app_flat_map {A B : Type} (F : B -> list A) (l : list B) :
  forall acc, fold_left (fun a b => a ++ F b) l acc = acc ++ flat_map F l.
Proof.
  induction l as [|b l IH]; intro acc; cbn [fold_left flat_map].
  - rewrite app_nil_r. reflexivity.
  - rewrite IH, app_assoc. reflexivity.
Qed.

(** [process] is the two fallible extractions, then [result_with]. *)
Lemma process_complex_input_eq (now : datetime) (text : string)
  (ctx : option context) :
  process_complex_input now text ctx
  = (dates <- extract_dates now text ;;
     amounts <- extract_amounts text ;;
     Ok (result_with now text (context_or_empty ctx) dates amounts)).
Proof.
  unfold process_complex_input, result_with, actions_for, context_or_empty.
  destruct (extract_dates now text) as [ds|e]; [|reflexivity].
  destruct (extract_amounts text) as [am|e]; [|reflexivity].
  cbn [bind]. rewrite fold_app_flat_map. reflexivity.
Qed.

(** X7. On a clock before the last day of the year 9999, [process] has
    two outcomes: amount extraction returned the empty list and [process]
    returns the result built from the classified intents, the normalised
    dates, the times and the priority, with no amounts; or amount
    extraction raised the [ValueError] of [float('')] and [process] raises
    it too. *)
Theorem process_outcomes :
  forall (now tomorrow : datetime) (text : string) (ctx : option context),
    add_days now 1 = Ok tomorrow ->
    (extract_amounts text = Ok []
     /\ process_complex_input now text ctx
        = Ok (result_with now text (context_or_empty ctx)
                (map (today_or_tomorrow now tomorrow) (raw_dates text)) []))
    \/ (extract_amounts text
        = Raise (ValueError "could not convert string to float: ''")
        /\ process_complex_input now text ctx
           = Raise (ValueError "could not convert string to float: ''")).
Proof.
  intros now tomorrow text ctx Ht.
  rewrite process_complex_input_eq.
  rewrite (extract_dates_eq now tomorrow text Ht). cbn [bind].
  destruct (extract_amounts_no_amount text) as [E|E]; rewrite E; cbn [bind].
  - left. split; reflexivity.
  - right. split; reflexivity.
Qed.

Lemma process_outcomes_witness :
  add_days a_wednesday 1 = Ok (Datetime 2024 5 2 10 0 0 0)
  /\ process_complex_input a_wednesday "I paid $20.00 for gas" None
     = Raise (ValueError "could not convert string to float: ''").
Proof.
  assert (H : add_days a_wednesday 1 = Ok (Datetime 2024 5 2 10 0 0 0))
    by (vm_compute; reflexivity).
  split; [exact H|].
  destruct (process_outcomes a_wednesday _ "I paid $20.00 for gas" None H)
    as [[E _]|[_ E]].
  - vm_compute in E. discriminate E.
  - exact E.
Defined.

(** A result [process] returned was built with no amounts. *)
Lemma process_returns_inv (now : datetime) (text : string)
  (ctx : option context) (r : interpretation) :
  process_complex_input now text ctx = Ok r ->
  exists dates,
    extract_dates now text = Ok dates
    /\ r = result_with now text (context_or_empty ctx) dates [].
Proof.
  rewrite process_complex_input_eq. intro H.
  destruct (extract_dates now text) as [ds|e]; [|discriminate H].
  cbn [bind] in H.
  destruct (extract_amounts_no_amount text) as [E|E]; rewrite E in H;
    [|discriminate H].
  cbn [bind] in H. injection H as <-. exists ds. split; reflexivity.
Qed.

Lemma generated_one (now : datetime) (i : intent) (text : string)
  (e : entities) (ctx : context) :
  List.length (_generate_actions_for_intent now i text e ctx)
  <= (if intent_eqb i conversation then 0 else 1)
  /\ forall a, In a (_generate_actions_for_intent now i text e ctx) ->
               intent_of a = i
               /\ (amounts e = [] -> is_budget_entry a = false).
Proof.
  destruct i; cbn [_generate_actions_for_intent intent_eqb].
  - unfold _generate_task_actions.
    repeat match goal with |- context [if ?b then _ else _] => destruct b end;
      (split; [cbn [List.length]; lia|]);
      intros a [<-|[]] || intros a []; split; reflexivity || (intros _; reflexivity).
  - unfold _generate_budget_actions.
    destruct (amounts e) as [|x xs];
      repeat match goal with |- context [if ?b then _ else _] => destruct b end;
      (split; [cbn [List.length]; lia|]);
      intros a [<-|[]] || intros a [];
      (split; [reflexivity|]); intro H; try discriminate H; reflexivity.
  - unfold _generate_schedule_actions.
    repeat match goal with |- context [if ?b then _ else _] => destruct b end;
      (split; [cbn [List.length]; lia|]);
      intros a [<-|[]] || intros a []; split; reflexivity || (intros _; reflexivity).
  - unfold _generate_query_actions.
    repeat match goal with |- context [if ?b then _ else _] => destruct b end;
      (split; [cbn [List.length]; lia|]);
      intros a [<-|[]] || intros a []; split; reflexivity || (intros _; reflexivity).
  - split; [cbn [List.length]; lia | intros a []].
Qed.

Lemma actions_for_length (now : datetime) (text : string) (e : entities)
  (ctx : context) (l : list intent) :
  List.length (actions_for now text e ctx l) <= List.length (specific l).
Proof.
  unfold actions_for, specific.
  induction l as [|i l IH]; [cbn; lia|].
  cbn [flat_map List.filter]. rewrite length_app.
  pose proof (proj1 (generated_one now i text e ctx)) as H.
  destruct (intent_eqb i conversation); cbn [negb List.length] in *; lia.
Qed.

Lemma specific_classified_length (text : string) :
  List.length (specific (classify_intent text)) <= 4.
Proof.
  rewrite classify_intent_eq, declaration_order_eq. cbn [List.filter].
  repeat match goal with |- context [category_matches ?i text] =>
           destruct (category_matches i text)
         end; cbn; lia.
Qed.

(** X8. Whenever [process] returns, each intent other than
    [conversation] contributed at most one action and [conversation] none:
    there are at most as many actions as such intents, at most four, and
    none when [conversation] is the only intent. *)
Theorem process_actions_bound :
  forall (now : datetime) (text : string) (ctx : option context)
         (r : interpretation),
    process_complex_input now text ctx = Ok r ->
    List.length (actions r) <= List.length (specific (intents r))
    /\ List.length (actions r) <= 4
    /\ (intents r = [conversation] -> actions r = []).
Proof.
  intros now text ctx r H.
  destruct (process_returns_inv now text ctx r H) as (ds & _ & ->).
  unfold result_with. cbn [actions intents].
  pose proof (actions_for_length now text
                (Entities ds (extract_times text) [] (extract_priority text))
                (context_or_empty ctx) (classify_intent text)) as L.
  pose proof (specific_classified_length text) as S.
  split; [exact L|]. split; [lia|].
  intro E. rewrite E. reflexivity.
Qed.

Lemma process_actions_bound_witness :
  exists r : interpretation,
    process_complex_input a_wednesday "thanks, bye" None = Ok r
    /\ actions r = [].
Proof.
  eexists. split.
  - vm_compute. reflexivity.
  - apply (proj2 (proj2 (process_actions_bound a_wednesday "thanks, bye" None _
                           ltac:(vm_compute; reflexivity)))).
    reflexivity.
Defined.

(** X2. Whenever [process] returns, it holds no amount, every action
    belongs to one of the classified intents, and no action is an
    [add_expense] or an [add_income]: the only budget action [process]
    ever proposes is [show_budget_summary]. *)
Theorem process_never_budget_entry :
  forall (now : datetime) (text : string) (ctx : option context)
         (r : interpretation),
    process_complex_input now text ctx = Ok r ->
    amounts (entities_of r) = []
    /\ forall a, In a (actions r) ->
                 In (intent_of a) (intents r) /\ is_budget_entry a = false.
Proof.
  intros now text ctx r H.
  destruct (process_returns_inv now text ctx r H) as (ds & _ & ->).
  unfold result_with. cbn [actions intents entities_of amounts].
  split; [reflexivity|].
  intros a Ha. unfold actions_for in Ha. apply in_flat_map in Ha.
  destruct Ha as (i & Hi & Ha).
  destruct (proj2 (generated_one now i text _ _) a Ha) as [E B].
  split; [rewrite E; exact Hi | apply B; reflexivity].
Qed.

Lemma process_never_budget_entry_witness :
  exists r : interpretation,
    process_complex_input a_wednesday "I spent $12 on coffee, show budget" None
    = Ok r
    /\ amounts (entities_of r) = [] /\ actions r = [show_budget_summary].
Proof.
  eexists. split; [vm_compute; reflexivity|].
  split.
  - exact (proj1 (process_never_budget_entry a_wednesday
                    "I spent $12 on coffee, show budget" None _
                    ltac:(vm_compute; reflexivity))).
  - vm_compute. reflexivity.
Defined.

(** *** Letter case *)

Lemma lower_char_idem (c : ascii) : lower_char (lower_char c) = lower_char c.
Proof.
  destruct c as [b0 b1 b2 b3 b4 b5 b6 b7].
  destruct b0, b1, b2, b3, b4, b5, b6, b7; vm_compute; reflexivity.
Qed.

Lemma lower_idem (s : string) : lower (lower s) = lower s.
Proof.
  unfold lower. rewrite chars_text, map_map. f_equal.
  apply map_ext. exact lower_char_idem.
Qed.

(** X9. Classification, priority, times and dates are read off the
    lower-cased text and so give on [text.lower()] what they give on
    [text]; amount extraction reads the text as it is, and "5.50 Bucks"
    and "5.50 bucks" fare differently. *)
Theorem letter_case :
  (forall text : string,
      classify_intent (lower text) = classify_intent text
      /\ extract_priority (lower text) = extract_priority text
      /\ extract_times (lower text) = extract_times text
      /\ forall now, extract_dates now (lower text) = extract_dates now text)
  /\ extract_amounts "5.50 Bucks" = Ok []
  /\ extract_amounts (lower "5.50 Bucks")
     = Raise (ValueError "could not convert string to float: ''").
Proof.
  split; [|split; vm_compute; reflexivity].
  intro text.
  unfold classify_intent, extract_priority, extract_times, extract_dates.
  rewrite lower_idem. repeat split; reflexivity.
Qed.

(** *** The cleaned texts *)

Lemma lstrip_suffix (l : list ascii) : exists pre, l = pre ++ lstrip_chars l.
Proof.
  induction l as [|c l [pre IH]]; [exists []; reflexivity|].
  cbn [lstrip_chars]. destruct (is_space c).
  - exists (c :: pre). rewrite IH at 1. reflexivity.
  - exists []. reflexivity.
Qed.

Lemma lstrip_head (l : list ascii) (c : ascii) :
  hd_error (lstrip_chars l) = Some c -> is_space c = false.
Proof.
  induction l as [|x l IH]; cbn [lstrip_chars]; intro H; [discriminate H|].
  destruct (is_space x) eqn:E; [exact (IH H)|].
  cbn in H. injection H as <-. exact E.
Qed.

(** The characters [strip] keeps are a middle part of the text. *)
Lemma strip_middle (s : string) :
  exists pre post, chars s = pre ++ chars (strip s) ++ post.
Proof.
  unfold strip. rewrite chars_text.
  destruct (lstrip_suffix (chars s)) as (pre & E1).
  destruct (lstrip_suffix (rev (lstrip_chars (chars s)))) as (pre2 & E2).
  exists pre, (rev pre2). rewrite E1 at 1. f_equal.
  rewrite <- rev_app_distr, <- E2, rev_involutive. reflexivity.
Qed.

Lemma strip_trimmed (s : string) : trimmed (strip s).
Proof.
  unfold trimmed, strip. rewrite chars_text, rev_involutive. split.
  - intros c H.
    destruct (lstrip_suffix (rev (lstrip_chars (chars s)))) as (pre2 & E2).
    apply (f_equal (@rev ascii)) in E2.
    rewrite rev_involutive, rev_app_distr in E2.
    destruct (rev (lstrip_chars (rev (lstrip_chars (chars s))))) as [|x m];
      [discriminate H|].
    cbn in H. injection H as ->.
    apply (lstrip_head (chars s)). rewrite E2. reflexivity.
  - intros c H. exact (lstrip_head _ c H).
Qed.

Lemma Subseq_refl {A : Type} (l : list A) : Subseq l l.
Proof. induction l; [apply Subseq_nil | apply Subseq_take; assumption]. Qed.

Lemma Subseq_nil_l {A : Type} (l : list A) : Subseq [] l.
Proof. induction l; constructor; assumption. Qed.

Lemma Subseq_trans {A : Type} (a b c : list A) :
  Subseq a b -> Subseq b c -> Subseq a c.
Proof.
  intros Hab Hbc. revert a Hab.
  induction Hbc as [|x l1 l2 H IH|x l1 l2 H IH]; intros a Hab.
  - exact Hab.
  - constructor. apply IH. exact Hab.
  - inversion Hab as [|y a1 b1 H1|y a1 b1 H1]; subst.
    + apply Subseq_skip. apply IH. exact H1.
    + apply Subseq_take. apply IH. exact H1.
Qed.

Lemma Subseq_middle {A : Type} (pre m post : list A) :
  Subseq m (pre ++ m ++ post).
Proof.
  induction pre as [|x pre IH]; cbn [app]; [|apply Subseq_skip; exact IH].
  induction m as [|y m IHm]; cbn [app]; [apply Subseq_nil_l|].
  apply Subseq_take. exact IHm.
Qed.

Lemma cut_Subseq (ic : bool) (r : regex) :
  forall l prev skip, Subseq (cut ic r prev l skip) l.
Proof.
  induction l as [|x l IH]; intros prev skip.
  - destruct skip; apply Subseq_nil.
  - destruct skip; cbn [cut].
    + destruct (match_at ic r (prev, x :: l)) as [[c' g]|].
      * destruct (List.length (consumed (prev, x :: l) c'));
          [apply Subseq_take | apply Subseq_skip]; apply IH.
      * apply Subseq_take. apply IH.
    + apply Subseq_skip. apply IH.
Qed.

Lemma re_sub_deletes (pattern : string) (ic : bool) (s : string) :
  only_deletes (re_sub pattern ic s) s.
Proof.
  unfold only_deletes, re_sub, sub_empty. rewrite chars_text. apply cut_Subseq.
Qed.

Lemma strip_deletes (s : string) : only_deletes (strip s) s.
Proof.
  unfold only_deletes. destruct (strip_middle s) as (pre & post & E).
  rewrite E. apply Subseq_middle.
Qed.

Lemma only_deletes_trans (a b c : string) :
  only_deletes a b -> only_deletes b c -> only_deletes a c.
Proof. unfold only_deletes. apply Subseq_trans. Qed.

Lemma search_from_spec (ic : bool) (r : regex) :
  forall l prev f,
    search_from ic r prev l = Some f ->
    exists pre, l = pre ++ snd (start f)
                /\ match_at ic r (start f) = Some (stop f, captured f).
Proof.
  induction l as [|x l IH]; intros prev f H; cbn [search_from] in H.
  - destruct (match_at ic r (prev, [])) as [[c' g]|] eqn:E; [|discriminate H].
    injection H as <-. exists []. split; [reflexivity | exact E].
  - destruct (match_at ic r (prev, x :: l)) as [[c' g]|] eqn:E.
    + injection H as <-. exists []. split; [reflexivity | exact E].
    + apply IH in H. destruct H as (pre & Hl & Hm).
      exists (x :: pre). split; [rewrite Hl at 1; reflexivity | exact Hm].
Qed.

Lemma location_deletes (text : string) :
  only_deletes (_extract_location text) text.
Proof.
  unfold _extract_location.
  destruct (search_flags true _ text) as [f|] eqn:E;
    [|unfold only_deletes; apply Subseq_nil_l].
  eapply only_deletes_trans; [apply strip_deletes|].
  unfold search_flags in E. apply search_from_spec in E.
  destruct E as (pre & Hl & Hm).
  unfold only_deletes, group_text, group.
  destruct (lookup 2 (captured f)) as [w|] eqn:Ew; cbn [option_map];
    [|apply Subseq_nil_l].
  destruct (capture_in_subject _ _ _ _ _ _ _ Hm Ew)
    as (b & c1 & g1 & c2 & g2 & pre' & _ & _ & Hs & Hw).
  rewrite chars_text, Hl, Hs, Hw, app_assoc. apply Subseq_middle.
Qed.

(** X10. The cleaned texts only delete: the task description, the expense
    and income descriptions, the event and reminder titles and the location
    are each made of characters of the input, in the order of the input. *)
Theorem cleaned_texts_only_delete :
  forall text : string,
    only_deletes (_extract_task_description text) text
    /\ only_deletes (_extract_expense_description text) text
    /\ only_deletes (_extract_income_description text) text
    /\ only_deletes (_extract_event_title text) text
    /\ only_deletes (_extract_reminder_title text) text
    /\ only_deletes (_extract_location text) text.
Proof.
  intro text.
  unfold _extract_task_description, _extract_expense_description,
    _extract_income_description, _extract_event_title, _extract_reminder_title.
  repeat split;
    try apply location_deletes;
    repeat (eapply only_deletes_trans;
            [first [apply strip_deletes | apply re_sub_deletes]|]);
    apply Subseq_refl.
Qed.

(** X11. The cleaned texts are trimmed: none of them begins or ends with
    white space. *)
Theorem cleaned_texts_trimmed :
  forall text : string,
    trimmed (_extract_task_description text)
    /\ trimmed (_extract_expense_description text)
    /\ trimmed (_extract_income_description text)
    /\ trimmed (_extract_event_title text)
    /\ trimmed (_extract_reminder_title text)
    /\ trimmed (_extract_location text).
Proof.
  intro text.
  unfold _extract_task_description, _extract_expense_description,
    _extract_income_description, _extract_event_title, _extract_reminder_title,
    _extract_location.
  repeat split; try apply strip_trimmed;
    destruct (search_flags true _ text);
    try apply strip_trimmed; intros c H; discriminate H.
Qed.

(** *** Combining a date and a time, in general *)

Lemma combine_parts (now : datetime) (dates : list pyval) (t : string)
  (ts : list string) :
  _combine_date_time now dates (t :: ts)
  = Some (date_part now dates ++ " " ++ time_part t)%string.
Proof.
  unfold _combine_date_time, date_part, time_part.
  destruct dates as [|d ds];
    destruct (contains "am" (lower t) || contains "pm" (lower t)); cbv zeta;
    repeat match goal with
           | |- context [if ?b then _ else _] => destruct b
           | |- context [match ?o with Some _ => _ | None => _ end] =>
               destruct o as [[? ?]|]
           end; reflexivity.
Qed.

(** X6. [_combine_date_time] returns [None] exactly when there is neither
    a date nor a time; every other result is the first date (or today's
    date), a space, and a time text. *)
Theorem combine_date_time_result :
  forall (now : datetime) (dates : list pyval) (times : list string),
    (_combine_date_time now dates times = None <-> dates = [] /\ times = [])
    /\ forall s, _combine_date_time now dates times = Some s ->
                 exists t, s = (date_part now dates ++ " " ++ t)%string.
Proof.
  intros now dates times. split; [apply combine_date_time_none_iff|].
  intros s H. destruct times as [|t ts].
  - destruct dates as [|d ds]; [discriminate H|].
    cbn in H. injection H as <-. exists "09:00:00". reflexivity.
  - rewrite combine_parts in H. injection H as <-. exists (time_part t). reflexivity.
Qed.

Lemma clock_table :
  forallb (fun h => forallb (clock_ok h) (seq 0 60)) (seq 1 12) = true
  /\ forallb (fun h => forallb (clock_rejected h) (seq 0 60)) (0 :: seq 13 11) = true.
Proof. split; vm_compute; reflexivity. Qed.

(** X14. A clock time "H:MM am" or "H:MM pm" with H from 1 to 12 and MM
    below 60 comes out in 24-hour form after the date: 12 am is 00, 12 pm
    is 12, and pm adds twelve hours otherwise.  With H equal to 0 or from
    13 to 23 the time does not parse and the result falls back to 09:00. *)
Theorem combine_clock_time :
  forall (now : datetime) (d : string) (h mi : nat) (pm : bool),
    mi < 60 ->
    (1 <= h <= 12 ->
     _combine_date_time now [PStr d] [clock_text h mi pm]
     = Some (d ++ " " ++ clock_24 h mi pm)%string)
    /\ (h = 0 \/ 13 <= h <= 23 ->
        _combine_date_time now [PStr d] [clock_text h mi pm]
        = Some (d ++ " 09:00")%string).
Proof.
  intros now d h mi pm Hmi. destruct clock_table as [T1 T2].
  rewrite forallb_forall in T1, T2.
  rewrite combine_parts. cbn [date_part py_str]. split; intro Hh.
  - assert (Hin : In h (seq 1 12)) by (apply in_seq; lia).
    specialize (T1 h Hin). rewrite forallb_forall in T1.
    specialize (T1 mi ltac:(apply in_seq; lia)).
    unfold clock_ok in T1. rewrite forallb_forall in T1.
    assert (E : String.eqb (time_part (clock_text h mi pm)) (clock_24 h mi pm) = true)
      by (apply T1; destruct pm; cbn [In]; auto).
    apply String.eqb_eq in E. rewrite E. reflexivity.
  - assert (Hin : In h (0 :: seq 13 11)).
    { destruct Hh as [->|Hh]; [left; reflexivity|]. right. apply in_seq. lia. }
    specialize (T2 h Hin). rewrite forallb_forall in T2.
    specialize (T2 mi ltac:(apply in_seq; lia)).
    unfold clock_rejected in T2. rewrite forallb_forall in T2.
    assert (E : String.eqb (time_part (clock_text h mi pm)) "09:00" = true)
      by (apply T2; destruct pm; cbn [In]; auto).
    apply String.eqb_eq in E. rewrite E. reflexivity.
Qed.

Lemma combine_clock_time_witness :
  _combine_date_time a_wednesday [PStr "2024-05-01"] ["12:05 am"]
  = Some "2024-05-01 00:05".
Proof.
  exact (proj1 (combine_clock_time a_wednesday "2024-05-01" 12 5 false
                  ltac:(lia)) ltac:(lia)).
Defined.

(** *** Every result [process] returns *)

Lemma extract_priority_range (text : string) :
  (1 <= extract_priority text <= 4)%Z.
Proof.
  unfold extract_priority.
  repeat match goal with |- context [if ?b then _ else _] => destruct b end; lia.
Qed.

Lemma classify_intent_NoDup (text : string) : NoDup (classify_intent text).
Proof.
  rewrite classify_intent_eq.
  pose proof (NoDup_filter (fun i => category_matches i text) declaration_order_NoDup)
    as H.
  destruct (List.filter _ declaration_order); [|exact H].
  repeat constructor. intros [].
Qed.

(** X12. Every result [process] returns has a non-empty list of distinct
    intents, a priority from 1 to 4, a confidence of 0.6, 0.8 or 0.9, no
    amounts, and the times [extract_times] gave. *)
Theorem process_result_invariants :
  forall (now : datetime) (text : string) (ctx : option context)
         (r : interpretation),
    process_complex_input now text ctx = Ok r ->
    intents r <> [] /\ NoDup (intents r)
    /\ (1 <= priority (entities_of r) <= 4)%Z
    /\ (confidence r = 0.6%float \/ confidence r = 0.8%float
        \/ confidence r = 0.9%float)
    /\ amounts (entities_of r) = []
    /\ times (entities_of r) = extract_times text.
Proof.
  intros now text ctx r H.
  destruct (process_returns_inv now text ctx r H) as (ds & _ & ->).
  unfold result_with. cbn [intents entities_of priority confidence amounts times].
  split; [apply classify_intent_nonempty|].
  split; [apply classify_intent_NoDup|].
  split; [apply extract_priority_range|].
  split; [|split; reflexivity].
  rewrite (calculate_confidence_eq text (classify_intent_nonempty text)).
  destruct (mem conversation (classify_intent text)); [left; reflexivity|].
  destruct (2 <=? List.length (classify_intent text)); auto.
Qed.

Lemma process_result_invariants_witness :
  exists r : interpretation,
    process_complex_input a_wednesday "remind me to call at 5 pm" None = Ok r
    /\ times (entities_of r) = [""; ""].
Proof.
  eexists. split; [vm_compute; reflexivity|].
  etransitivity.
  - exact (proj2 (proj2 (proj2 (proj2 (proj2
             (process_result_invariants a_wednesday "remind me to call at 5 pm"
                None _ ltac:(vm_compute; reflexivity))))))).
  - vm_compute. reflexivity.
Defined.

(** *** Suggestions: what the limit of three drops *)

Import SuggestionFacts.


(** *** The start time of a proposed event *)

Lemma generated_start (now : datetime) (i : intent) (text : string)
  (e : entities) (ctx : context) (a : action) (st : option string) :
  In a (_generate_actions_for_intent now i text e ctx) ->
  start_of a = Some st ->
  st = _combine_date_time now (dates e) (times e).
Proof.
  destruct i; cbn [_generate_actions_for_intent].
  - unfold _generate_task_actions.
    repeat match goal with |- context [if ?b then _ else _] => destruct b end;
      intros [<-|[]] H || intros [] H; discriminate H.
  - unfold _generate_budget_actions.
    destruct (amounts e);
      repeat match goal with |- context [if ?b then _ else _] => destruct b end;
      intros [<-|[]] H || intros [] H; discriminate H.
  - unfold _generate_schedule_actions.
    repeat match goal with |- context [if ?b then _ else _] => destruct b end;
      intros [<-|[]] H || intros [] H; cbn [start_of] in H;
      injection H as <-; reflexivity.
  - unfold _generate_query_actions.
    repeat match goal with |- context [if ?b then _ else _] => destruct b end;
      intros [<-|[]] H || intros [] H; discriminate H.
  - intros [].
Qed.

(** X15. Whenever [process] returns, the start time of every event or
    reminder it proposes is [None] when neither a date nor a time was
    extracted, and otherwise the first extracted date (or today's date), a
    space, the first extracted time (or "09:00") and ":00": an hour with
    am or pm in the input is never turned into a 24-hour time. *)
Theorem process_start_time :
  forall (now : datetime) (text : string) (ctx : option context)
         (r : interpretation) (a : action) (st : option string),
    process_complex_input now text ctx = Ok r ->
    In a (actions r) -> start_of a = Some st ->
    st = plain_combination now (dates (entities_of r)) (extract_times text).
Proof.
  intros now text ctx r a st H Ha Hs.
  destruct (process_returns_inv now text ctx r H) as (ds & _ & ->).
  unfold result_with in *. cbn [actions entities_of dates] in *.
  unfold actions_for in Ha. apply in_flat_map in Ha. destruct Ha as (i & _ & Ha).
  rewrite (generated_start now i text _ _ a st Ha Hs). cbn [dates times].
  apply combine_plain.
  destruct (extract_times text) as [|t ts] eqn:E; [exact I|].
  apply (extract_times_plain text). rewrite E. left. reflexivity.
Qed.

Lemma process_start_time_witness :
  exists r : interpretation,
    process_complex_input a_wednesday "Schedule a meeting tomorrow at 3 pm" None
    = Ok r
    /\ forall a st, In a (actions r) -> start_of a = Some st ->
                    st = Some "2024-05-02 :00".
Proof.
  eexists. split; [vm_compute; reflexivity|].
  intros a st Ha Hs.
  etransitivity.
  - exact (process_start_time a_wednesday "Schedule a meeting tomorrow at 3 pm"
             None _ a st ltac:(vm_compute; reflexivity) Ha Hs).
  - vm_compute. reflexivity.
Defined.
